(** * The Ravi/Lua debug adapter for VSCode: [vscode-debugger/ravidebug.c]

    A shallow embedding of the adapter core: the session state, the request
    handlers, the dispatch loop of [debugger], the Lua hook [ravi_debughook]
    and [main].  Function and constant names are those of the C source.

    Conventions.
    - C [int]s are [Z]; where the source computes on an [int] coming from a
      request the 32-bit wrap-around is written out ([wrap_int]).
    - C flags assigned the literals 0 and 1 are [bool].
    - [out] is the list of protocol messages written so far, oldest first.
      A message is recorded as the structure the handler has filled in; its
      serialization ([vscode_serialize_response], [vscode_serialize_event])
      belongs to [protocol.c].  The log file is a pure sink and is left out.
    - The input is the list of what the turns of the read loop will find.
    - [exit] is an outcome of its own, carrying the session at that point.
    - The read loop can re-enter itself through the hook, so it is defined
      with fuel; fuel above the length of the input is always enough
      ([finishes_main]) and more fuel changes nothing ([main_fuel]). *)

From Stdlib Require Import ZArith Lia String Ascii Bool.
From stdpp Require Import base list.

Local Open Scope string_scope.
Local Open Scope list_scope.
Local Open Scope Z_scope.

(** ** Machine integers and C strings *)

Definition wrap_int (z : Z) : Z := (z + 2 ^ 31) mod 2 ^ 32 - 2 ^ 31.

Definition int_range (z : Z) : Prop := - 2 ^ 31 <= z < 2 ^ 31.

(** [strncpy(dst, src, n)]: at most [n] characters of [src] reach [dst]. *)
Definition strncpy (n : nat) (src : string) : string := String.substring 0 n src.

(** A local [char buf[n]] that [strncpy(buf, text, n)] has filled, read back
    as a C string.  The copy ends with a terminator only when [text] is
    shorter than the buffer; when it is not, the read runs through the [n]
    characters copied and on into [behind], the memory after the buffer. *)
Definition read_local (n : nat) (text behind : string) : string :=
  if (String.length text <? n)%nat then text
  else String.append (strncpy n text) behind.

(** [snprintf(dst, n, ...)]: at most [n - 1] characters and the terminator. *)
Definition snprintf (n : nat) (text : string) : string :=
  String.substring 0 (Nat.pred n) text.

(** [strrchr(s, c) + 1]: what follows the last [c] of [s], if [c] occurs. *)
Fixpoint strrchr_next (c : ascii) (s : string) : option string :=
  match s with
  | EmptyString => None
  | String a rest =>
      match strrchr_next c rest with
      | Some t => Some t
      | None => if Ascii.eqb a c then Some rest else None
      end
  end.

(** ** protocol.h *)

(** Modelled from the spec: [protocol.h] and [protocol.c] are not among the
    sources.  The compile-time caps and the sizes of the character arrays of
    the message structures are taken as parameters; the message structures
    follow the data model and the event and response schemas of the
    specification.

    The last field is the other thing the source leaves to the build: what
    lies in memory behind a local character buffer of
    [handle_stack_trace_request].  [behind_local n src] is the text a read
    finds behind the local buffer of [n] characters while the frame of the
    chunk named [src] is being written. *)
Class protocol_h := {
  MAX_STACK_FRAMES : Z;
  MAX_VARIABLES : Z;
  MAX_SCOPES : Z;
  MAX_THREADS : Z;
  sizeof_thread_name : nat;
  sizeof_frame_name : nat;
  sizeof_source_name : nat;
  sizeof_source_path : nat;
  sizeof_scope_name : nat;
  sizeof_variable_name : nat;
  behind_local : nat -> string -> string
}.

Inductive ResponseType :=
| VSCODE_INITIALIZE_RESPONSE
| VSCODE_LAUNCH_RESPONSE
| VSCODE_STACK_TRACE_RESPONSE
| VSCODE_SCOPES_RESPONSE
| VSCODE_VARIABLES_RESPONSE
| VSCODE_DISCONNECT_RESPONSE
| VSCODE_SET_EXCEPTION_BREAKPOINTS_RESPONSE
| VSCODE_CONFIGURATION_DONE_RESPONSE
| VSCODE_THREAD_RESPONSE
| VSCODE_STEPIN_RESPONSE
| VSCODE_STEPOUT_RESPONSE
| VSCODE_NEXT_RESPONSE
| VSCODE_OTHER_RESPONSE (code : Z).

(** The request union, tagged by the command code [vscode_parse_message]
    returns; a code the switch of [debugger] has no case for is
    [UnknownRequest]. *)
Inductive RequestArgs :=
| InitializeRequest
| LaunchRequest (program : string)
| StackTraceRequest (levels : Z)
| ScopesRequest (frameId : Z)
| VariablesRequest (variablesReference : Z)
| DisconnectRequest
| SetExceptionBreakpointsRequest
| ConfigurationDoneRequest
| ThreadRequest
| StepInRequest
| StepOutRequest
| NextRequest
| UnknownRequest (code : Z).

Record Request := {
  seq : Z;
  command : string;
  arguments : RequestArgs
}.

Record Thread := { thread_id : Z; thread_name : string }.

Record Source := { source_name : string; source_path : string }.

Record StackFrame := {
  frame_id : Z;
  frame_name : string;
  frame_source : Source;
  frame_line : Z
}.

Record Scope := {
  scope_name : string;
  scope_variablesReference : Z;
  scope_expensive : bool
}.

Record VariableEntry := {
  variable_name : string;
  variable_value : string;
  variable_type : string;
  variable_variablesReference : Z
}.

(** The response union: one member per response type, arrays as lists of
    the array's length. *)
Inductive ResponseBody :=
| EmptyBody
| InitializeResponse (supportsConfigurationDoneRequest : bool)
| ThreadResponse (threads : list Thread)
| StackTraceResponse (stackFrames : list StackFrame) (totalFrames : Z)
| ScopesResponse (scopes : list Scope)
| VariablesResponse (variables : list VariableEntry).

Record Response := {
  request_seq : Z;
  response_command : string;
  response_type : ResponseType;
  success : bool;
  message : string;
  body : ResponseBody
}.

Inductive Event :=
| InitializedEvent
| StoppedEvent (reason : string) (threadId : Z)
| ThreadEvent (started : bool) (threadId : Z)
| TerminatedEvent
| OutputEvent (category : string) (output : string).

Inductive ProtocolMessage :=
| VSCODE_EVENT (e : Event)
| VSCODE_RESPONSE (r : Response).

Definition zero_Thread : Thread := {| thread_id := 0; thread_name := "" |}.

Definition zero_StackFrame : StackFrame :=
  {| frame_id := 0; frame_name := "";
     frame_source := {| source_name := ""; source_path := "" |};
     frame_line := 0 |}.

Definition zero_Scope : Scope :=
  {| scope_name := ""; scope_variablesReference := 0; scope_expensive := false |}.

Definition zero_VariableEntry : VariableEntry :=
  {| variable_name := ""; variable_value := ""; variable_type := "";
     variable_variablesReference := 0 |}.

Definition set_variable_name (name : string) (v : VariableEntry) : VariableEntry :=
  {| variable_name := name; variable_value := variable_value v;
     variable_type := variable_type v;
     variable_variablesReference := variable_variablesReference v |}.

Section Protocol.
Context {H : protocol_h}.

(** Modelled from the spec: the cleared body a fresh response of the given
    type starts from ([protocol.c] is not among the sources). *)
Definition zero_body (restype : ResponseType) : ResponseBody :=
  match restype with
  | VSCODE_INITIALIZE_RESPONSE => InitializeResponse false
  | VSCODE_THREAD_RESPONSE =>
      ThreadResponse (replicate (Z.to_nat MAX_THREADS) zero_Thread)
  | VSCODE_STACK_TRACE_RESPONSE =>
      StackTraceResponse (replicate (Z.to_nat MAX_STACK_FRAMES) zero_StackFrame) 0
  | VSCODE_SCOPES_RESPONSE =>
      ScopesResponse (replicate (Z.to_nat MAX_SCOPES) zero_Scope)
  | VSCODE_VARIABLES_RESPONSE =>
      VariablesResponse (replicate (Z.to_nat MAX_VARIABLES) zero_VariableEntry)
  | _ => EmptyBody
  end.

(** Modelled from the spec: [vscode_make_success_response] of [protocol.c];
    a response echoes the request's [seq] and [command] and has
    [success = true].  The adapter-assigned [seq] counter lives in
    [protocol.c] and is left out. *)
Definition vscode_make_success_response (req : Request) (restype : ResponseType)
  : Response :=
  {| request_seq := seq req; response_command := command req;
     response_type := restype; success := true; message := "";
     body := zero_body restype |}.

(** Modelled from the spec: [vscode_make_error_response] of [protocol.c];
    errors carry [success = false] and [message]. *)
Definition vscode_make_error_response (req : Request) (restype : ResponseType)
    (errormsg : string) : Response :=
  {| request_seq := seq req; response_command := command req;
     response_type := restype; success := false; message := errormsg;
     body := zero_body restype |}.

(** Modelled from the spec: the event constructors of [protocol.c], after the
    event schema: [stopped {reason, threadId:1}], [thread {started,
    threadId:1}], [output {category:"console", output}]. *)
Definition vscode_make_initialized_event : Event := InitializedEvent.
Definition vscode_make_stopped_event (msg : string) : Event := StoppedEvent msg 1.
Definition vscode_make_thread_event (started : bool) : Event := ThreadEvent started 1.
Definition vscode_make_terminated_event : Event := TerminatedEvent.
Definition vscode_make_output_event (msg : string) : Event := OutputEvent "console" msg.

Definition set_body (b : ResponseBody) (r : Response) : Response :=
  {| request_seq := request_seq r; response_command := response_command r;
     response_type := response_type r; success := success r;
     message := message r; body := b |}.

End Protocol.

(** ** The interpreter, as far as the adapter sees it *)

(** Modelled from the spec: the Lua interpreter is not among the sources.
    An activation record carries what [lua_getinfo] reports for the options
    "Sln" and "u" and the names [lua_getlocal] finds, in order. *)
Record CallInfo := {
  source : string;
  currentline : Z;
  name : option string;
  nups : Z;
  locals : list string
}.

Definition LUA_HOOKCALL : Z := 0.
Definition LUA_HOOKRET : Z := 1.
Definition LUA_HOOKLINE : Z := 2.
Definition LUA_HOOKCOUNT : Z := 3.
Definition LUA_HOOKTAILCALL : Z := 4.

Definition LUA_MASKCALL : Z := Z.shiftl 1 LUA_HOOKCALL.
Definition LUA_MASKRET : Z := Z.shiftl 1 LUA_HOOKRET.
Definition LUA_MASKLINE : Z := Z.shiftl 1 LUA_HOOKLINE.
Definition LUA_MASKCOUNT : Z := Z.shiftl 1 LUA_HOOKCOUNT.

(** One hook event of a run: the event code of [ar->event] and the call
    stack at that moment, level 0 first. *)
Record HookCall := { event : Z; frames : list CallInfo }.

(** A loaded chunk, by what running it does: the hook events it raises, in
    order, and how the run ends ([None] for [LUA_OK], else the error
    message left on the stack). *)
Record Chunk := { chunk_events : list HookCall; chunk_error : option string }.

Inductive LoadResult :=
| LoadError (msg : string)
| Loaded (p : Chunk).

Record lua_State := {
  luaL_loadfile : string -> LoadResult;
  hookmask : Z;
  ci : list CallInfo
}.

Definition set_ci (stack : list CallInfo) (L : lua_State) : lua_State :=
  {| luaL_loadfile := luaL_loadfile L; hookmask := hookmask L; ci := stack |}.

(** [lua_getstack(L, level, &entry)]: absent for a negative level and for a
    level the stack does not reach. *)
Definition lua_getstack (L : lua_State) (level : Z) : option CallInfo :=
  if level <? 0 then None else ci L !! Z.to_nat level.

(** [lua_getlocal(L, &entry, n)], [n] counted from 1. *)
Definition lua_getlocal (entry : CallInfo) (n : Z) : option string :=
  if n <? 1 then None else locals entry !! Z.to_nat (n - 1).

(** Whether the interpreter raises [event] under [mask]; a tail call is
    reported under the call mask. *)
Definition hook_enabled (mask event : Z) : bool :=
  Z.testbit mask (if event =? LUA_HOOKTAILCALL then LUA_HOOKCALL else event).

(** ** The session *)

Definition DEBUGGER_BIRTH : Z := 1.
Definition DEBUGGER_INITIALIZED : Z := 2.
Definition DEBUGGER_PROGRAM_LAUNCHED : Z := 3.
Definition DEBUGGER_PROGRAM_RUNNING : Z := 4.
Definition DEBUGGER_PROGRAM_STOPPED : Z := 5.
Definition DEBUGGER_PROGRAM_TERMINATED : Z := 6.

(** What one turn of the read loop of [debugger] finds on its input: the
    framing ([fgets], [atoi], [fread]) and the JSON parser of [protocol.c]
    are the codec's; the loop is modelled on their results. *)
Inductive Incoming :=
| UnexpectedLine (line : string)
| OversizedHeader (len : Z)
| EofAfterHeader
| ShortBody (len : Z)
| Message (req : Request).

Record Session := {
  debugger_state : Z;
  thread_event_sent : bool;
  stdin : list Incoming;
  out : list ProtocolMessage
}.

Definition set_state (st : Z) (s : Session) : Session :=
  {| debugger_state := st; thread_event_sent := thread_event_sent s;
     stdin := stdin s; out := out s |}.

Definition set_thread_event_sent (b : bool) (s : Session) : Session :=
  {| debugger_state := debugger_state s; thread_event_sent := b;
     stdin := stdin s; out := out s |}.

Definition set_stdin (i : list Incoming) (s : Session) : Session :=
  {| debugger_state := debugger_state s;
     thread_event_sent := thread_event_sent s; stdin := i; out := out s |}.

(** [fprintf(out, buf)] of a serialized message. *)
Definition emit (m : ProtocolMessage) (s : Session) : Session :=
  {| debugger_state := debugger_state s;
     thread_event_sent := thread_event_sent s; stdin := stdin s;
     out := out s ++ [m] |}.

Inductive Outcome (A : Type) :=
| Return (a : A)
| Exit (status : Z) (s : Session)
| OutOfFuel.

Arguments Return {A} a.
Arguments Exit {A} status s.
Arguments OutOfFuel {A}.

Definition bind {A B : Type} (o : Outcome A) (k : A -> Outcome B) : Outcome B :=
  match o with
  | Return a => k a
  | Exit status s => Exit status s
  | OutOfFuel => OutOfFuel
  end.

Notation "'let*' x ':=' o 'in' k" := (bind o (fun x => k))
  (at level 10, x pattern, o at level 100, k at level 200).

(** ** The handlers *)

Section Adapter.
Context {H : protocol_h}.

Definition send_stopped_event (msg : string) (s : Session) : Session :=
  emit (VSCODE_EVENT (vscode_make_stopped_event msg)) s.

Definition send_thread_event (started : bool) (s : Session) : Session :=
  emit (VSCODE_EVENT (vscode_make_thread_event started)) s.

Definition send_terminated_event (s : Session) : Session :=
  emit (VSCODE_EVENT vscode_make_terminated_event) s.

Definition send_output_event (msg : string) (s : Session) : Session :=
  emit (VSCODE_EVENT (vscode_make_output_event msg)) s.

Definition send_error_response (req : Request) (responseType : ResponseType)
    (msg : string) (s : Session) : Session :=
  emit (VSCODE_RESPONSE (vscode_make_error_response req responseType msg)) s.

Definition send_success_response (req : Request) (responseType : ResponseType)
    (s : Session) : Session :=
  emit (VSCODE_RESPONSE (vscode_make_success_response req responseType)) s.

Definition handle_initialize_request (req : Request) (s : Session) : Session :=
  if DEBUGGER_INITIALIZED <=? debugger_state s then
    send_error_response req VSCODE_INITIALIZE_RESPONSE "already initialized" s
  else
    let s := emit (VSCODE_EVENT vscode_make_initialized_event) s in
    let res := vscode_make_success_response req VSCODE_INITIALIZE_RESPONSE in
    let res := set_body (InitializeResponse true) res in
    let s := emit (VSCODE_RESPONSE res) s in
    let s := send_output_event "Debugger initialized" s in
    set_state DEBUGGER_INITIALIZED s.

Definition threads_of (b : ResponseBody) : list Thread :=
  match b with ThreadResponse threads => threads | _ => [] end.

Definition stackFrames_of (b : ResponseBody) : list StackFrame :=
  match b with StackTraceResponse stackFrames _ => stackFrames | _ => [] end.

Definition scopes_of (b : ResponseBody) : list Scope :=
  match b with ScopesResponse scopes => scopes | _ => [] end.

Definition variables_of (b : ResponseBody) : list VariableEntry :=
  match b with VariablesResponse variables => variables | _ => [] end.

Definition handle_thread_request (req : Request) (s : Session) : Session :=
  let res := vscode_make_success_response req VSCODE_THREAD_RESPONSE in
  let threads :=
    <[0%nat := {| thread_id := 1;
                  thread_name := strncpy sizeof_thread_name "Lua Thread" |}]>
      (threads_of (body res)) in
  emit (VSCODE_RESPONSE (set_body (ThreadResponse threads) res)) s.

(** The body of the [while] of [handle_stack_trace_request]: the frame
    written to [stackFrames[depth]].  The chunk name goes through the locals
    [char path[1024]] and [char name[256]]: [strncpy] fills them and the
    second [strncpy] reads them back as C strings, so a text that fills its
    local buffer drags along what lies behind it. *)
Definition stack_frame_at (depth : Z) (entry : CallInfo) : StackFrame :=
  let src := match source entry with
             | String "@" rest => rest
             | src => src
             end in
  let name256 := match strrchr_next "/" src with
                 | Some after => read_local 256 after (behind_local 256 src)
                 | None => read_local 256 src (behind_local 256 src)
                 end in
  let path := read_local 1024 src (behind_local 1024 src) in
  let funcname := match name entry with Some n => n | None => "?" end in
  {| frame_id := depth;
     frame_name := strncpy sizeof_frame_name funcname;
     frame_source := {| source_name := strncpy sizeof_source_name name256;
                        source_path := strncpy sizeof_source_path path |};
     frame_line := currentline entry |}.

(** The [while] of [handle_stack_trace_request]; it leaves by its own
    condition within [length (ci L) + 1] turns. *)
Fixpoint stack_trace_loop (turns : nat) (L : lua_State) (levels depth : Z)
    (stackFrames : list StackFrame) : list StackFrame * Z :=
  match turns with
  | O => (stackFrames, depth)
  | S turns =>
      match lua_getstack L depth with
      | Some entry =>
          if (depth <? levels) && (depth <? MAX_STACK_FRAMES) then
            stack_trace_loop turns L levels (depth + 1)
              (<[Z.to_nat depth := stack_frame_at depth entry]> stackFrames)
          else (stackFrames, depth)
      | None => (stackFrames, depth)
      end
  end.

Definition handle_stack_trace_request (req : Request) (levels : Z)
    (L : lua_State) (s : Session) : Session :=
  let res := vscode_make_success_response req VSCODE_STACK_TRACE_RESPONSE in
  let '(stackFrames, depth) :=
    stack_trace_loop (S (length (ci L))) L levels 0 (stackFrames_of (body res)) in
  emit (VSCODE_RESPONSE (set_body (StackTraceResponse stackFrames depth) res)) s.

Definition handle_scopes_request (req : Request) (frameId : Z)
    (L : lua_State) (s : Session) : Session :=
  let res := vscode_make_success_response req VSCODE_SCOPES_RESPONSE in
  let depth := frameId in
  let res :=
    match lua_getstack L depth with
    | Some entry =>
        let i := 0%nat in
        let scopes :=
          <[i := {| scope_name := strncpy sizeof_scope_name "Locals";
                    scope_variablesReference := wrap_int (1000000 + depth);
                    scope_expensive := false |}]> (scopes_of (body res)) in
        let i := S i in
        let '(scopes, i) :=
          if 0 <? nups entry then
            (<[i := {| scope_name := strncpy sizeof_scope_name "Up Values";
                       scope_variablesReference := wrap_int (2000000 + depth);
                       scope_expensive := false |}]> scopes, S i)
          else (scopes, i) in
        let scopes :=
          <[i := {| scope_name := strncpy sizeof_scope_name "Globals";
                    scope_variablesReference := wrap_int (3000000 + depth);
                    scope_expensive := true |}]> scopes in
        set_body (ScopesResponse scopes) res
    | None =>
        vscode_make_error_response req VSCODE_SCOPES_RESPONSE
          "Error retrieving stack frame"
    end in
  emit (VSCODE_RESPONSE res) s.

(** The decoding at the head of [handle_variables_request]: the scope type
    character and the frame depth of a [variablesReference]. *)
Definition decode_varRef (varRef : Z) : ascii * Z :=
  if 3000000 <=? varRef then ("g"%char, wrap_int (varRef - 3000000))
  else if 2000000 <=? varRef then ("u"%char, wrap_int (varRef - 2000000))
  else ("l"%char, wrap_int (varRef - 1000000)).

(** The [for] of [handle_variables_request]; [x] is never advanced by the
    source, so every name found lands in [variables[x]] with [x = 0]. *)
Fixpoint variables_loop (turns : nat) (entry : CallInfo) (n : Z) (x : nat)
    (variables : list VariableEntry) : list VariableEntry :=
  match turns with
  | O => variables
  | S turns =>
      if n <? MAX_VARIABLES then
        match lua_getlocal entry n with
        | Some local =>
            variables_loop turns entry (n + 1) x
              (alter (set_variable_name (strncpy sizeof_variable_name local))
                 x variables)
        | None => variables
        end
      else variables
  end.

Definition handle_variables_request (req : Request) (variablesReference : Z)
    (L : lua_State) (s : Session) : Session :=
  let res := vscode_make_success_response req VSCODE_VARIABLES_RESPONSE in
  let varRef := variablesReference in
  let '(type, depth) := decode_varRef varRef in
  let res :=
    match (if Ascii.eqb type "l" then lua_getstack L depth else None) with
    | Some entry =>
        let x := 0%nat in
        set_body
          (VariablesResponse
             (variables_loop (Z.to_nat MAX_VARIABLES) entry 1 x
                (variables_of (body res)))) res
    | None =>
        vscode_make_error_response req VSCODE_VARIABLES_RESPONSE
          "Error retrieving variables"
    end in
  emit (VSCODE_RESPONSE res) s.

(** [handle_launch_request], over the run of the loaded chunk
    ([lua_pcall(L, 0, 0, 0)]), which re-enters the adapter through the
    hook. *)
Definition handle_launch_request
    (lua_pcall : lua_State -> Chunk -> Session -> Outcome (Session * option string))
    (req : Request) (program : string) (L : lua_State) (s : Session)
  : Outcome Session :=
  if negb (debugger_state s =? DEBUGGER_INITIALIZED) then
    Return (send_error_response req VSCODE_LAUNCH_RESPONSE
              "not initialized or unexpected state" s)
  else
    let progname := program in
    match luaL_loadfile L progname with
    | LoadError msg =>
        let temp :=
          snprintf 1024
            (String.append "Failed to launch "
               (String.append progname
                  (String.append " due to error: " msg))) in
        let s := send_output_event temp s in
        let s := send_error_response req VSCODE_LAUNCH_RESPONSE "Launch failed" s in
        Return s
    | Loaded p =>
        let s := send_success_response req VSCODE_LAUNCH_RESPONSE s in
        let s := set_state DEBUGGER_PROGRAM_RUNNING s in
        let* (s, status) := lua_pcall L p s in
        let s := match status with
                 | Some msg =>
                     send_output_event msg
                       (send_output_event "Program terminated with error" s)
                 | None => s
                 end in
        let s := send_terminated_event s in
        Return (set_state DEBUGGER_PROGRAM_TERMINATED s)
    end.

(** The [switch] of [debugger]: the session after the request and the value
    of [get_command]. *)
Definition dispatch
    (lua_pcall : lua_State -> Chunk -> Session -> Outcome (Session * option string))
    (L : lua_State) (req : Request) (s : Session) : Outcome (Session * bool) :=
  match arguments req with
  | InitializeRequest => Return (handle_initialize_request req s, true)
  | LaunchRequest program =>
      let* s := handle_launch_request lua_pcall req program L s in
      Return (s, true)
  | StackTraceRequest levels =>
      Return (handle_stack_trace_request req levels L s, true)
  | ScopesRequest frameId =>
      Return (handle_scopes_request req frameId L s, true)
  | VariablesRequest variablesReference =>
      Return (handle_variables_request req variablesReference L s, true)
  | DisconnectRequest =>
      Exit 0 (send_success_response req VSCODE_DISCONNECT_RESPONSE s)
  | SetExceptionBreakpointsRequest =>
      Return (send_success_response req
                VSCODE_SET_EXCEPTION_BREAKPOINTS_RESPONSE s, true)
  | ConfigurationDoneRequest =>
      Return (send_success_response req VSCODE_CONFIGURATION_DONE_RESPONSE s, true)
  | ThreadRequest => Return (handle_thread_request req s, true)
  | StepInRequest =>
      Return (send_success_response req VSCODE_STEPIN_RESPONSE s, false)
  | StepOutRequest =>
      Return (send_success_response req VSCODE_STEPOUT_RESPONSE s, false)
  | NextRequest =>
      Return (send_success_response req VSCODE_NEXT_RESPONSE s, false)
  | UnknownRequest code =>
      let msg := snprintf 100 (String.append (command req) " not yet implemented") in
      Return (send_error_response req (VSCODE_OTHER_RESPONSE code) msg s, true)
  end.

(** [debugger], over its read loop. *)
Definition debugger (command_loop : lua_State -> Session -> Outcome Session)
    (L : lua_State) (s : Session) : Outcome Session :=
  if debugger_state s =? DEBUGGER_PROGRAM_TERMINATED then Return s
  else
    let s :=
      if debugger_state s =? DEBUGGER_PROGRAM_RUNNING then
        let s :=
          if negb (thread_event_sent s) then
            let s := set_thread_event_sent true s in
            let s := send_thread_event true s in
            send_stopped_event "entry" s
          else send_stopped_event "step" s in
        set_state DEBUGGER_PROGRAM_STOPPED s
      else s in
    let* s := command_loop L s in
    Return (set_state DEBUGGER_PROGRAM_RUNNING s).

Definition ravi_debughook (debugger : lua_State -> Session -> Outcome Session)
    (L : lua_State) (event : Z) (s : Session) : Outcome Session :=
  if event =? LUA_HOOKLINE then debugger L s else Return s.

(** Modelled from the spec: [run_loaded] of the interpreter bridge.  The
    interpreter raises the events of the run that the installed mask covers,
    each with its call stack, and calls the hook for them. *)
Fixpoint run_events (hook : lua_State -> Z -> Session -> Outcome Session)
    (L : lua_State) (events : list HookCall) (s : Session) : Outcome Session :=
  match events with
  | [] => Return s
  | ar :: events =>
      let* s := (if hook_enabled (hookmask L) (event ar)
                 then hook (set_ci (frames ar) L) (event ar) s
                 else Return s) in
      run_events hook L events s
  end.

Definition lua_pcall (hook : lua_State -> Z -> Session -> Outcome Session)
    (L : lua_State) (p : Chunk) (s : Session)
  : Outcome (Session * option string) :=
  let* s := run_events hook L (chunk_events p) s in
  Return (s, chunk_error p).

(** The [while (get_command && fgets(...) != NULL)] of [debugger].  A turn
    takes one item off the input; the handlers it calls may run the program,
    whose hook re-enters [debugger] on what is left of the input. *)
Fixpoint command_loop (fuel : nat) (L : lua_State) (s : Session)
  : Outcome Session :=
  match fuel with
  | O => OutOfFuel
  | S fuel =>
      match stdin s with
      | [] => Return s
      | item :: rest =>
          let s := set_stdin rest s in
          match item with
          | UnexpectedLine _ => command_loop fuel L s
          | OversizedHeader _ => Exit 1 s
          | EofAfterHeader => Return s
          | ShortBody _ => Exit 1 s
          | Message req =>
              let hook := ravi_debughook (debugger (command_loop fuel)) in
              let* (s, get_command) := dispatch (lua_pcall hook) L req s in
              if get_command then command_loop fuel L s else Return s
          end
      end
  end.

Definition initial_session (input : list Incoming) : Session :=
  {| debugger_state := DEBUGGER_BIRTH; thread_event_sent := false;
     stdin := input; out := [] |}.

Definition main_hookmask : Z :=
  Z.lor (Z.lor LUA_MASKCALL LUA_MASKLINE) LUA_MASKRET.

(** [main]: a fresh Lua state with the hook installed, then [debugger] on
    the session at birth. *)
Definition main (fuel : nat) (files : string -> LoadResult)
    (input : list Incoming) : Outcome Session :=
  let L := {| luaL_loadfile := files; hookmask := main_hookmask; ci := [] |} in
  debugger (command_loop fuel) L (initial_session input).

End Adapter.

(** ** Vocabulary of the specification *)

(** The three scope kinds of a variables reference, the base of their
    handles, and the type character [handle_variables_request] decodes
    them to. *)
Inductive ScopeKind := Locals | Upvalues | Globals.

Definition kind_base (k : ScopeKind) : Z :=
  match k with
  | Locals => 1000000
  | Upvalues => 2000000
  | Globals => 3000000
  end.

Definition kind_type (k : ScopeKind) : ascii :=
  match k with
  | Locals => "l"%char
  | Upvalues => "u"%char
  | Globals => "g"%char
  end.

(** The handle [handle_scopes_request] stores for a scope of kind [k] of the
    frame at [depth]. *)
Definition encode_handle (k : ScopeKind) (depth : Z) : Z :=
  wrap_int (kind_base k + depth).


Definition is_thread_event (m : ProtocolMessage) : bool :=
  match m with VSCODE_EVENT (ThreadEvent _ _) => true | _ => false end.

Definition is_stopped_event (m : ProtocolMessage) : bool :=
  match m with VSCODE_EVENT (StoppedEvent _ _) => true | _ => false end.

(** Neither a thread event nor a stopped event. *)
Definition quiet (m : ProtocolMessage) : Prop :=
  is_thread_event m = false /\ is_stopped_event m = false.

Definition thread_started : ProtocolMessage := VSCODE_EVENT (ThreadEvent true 1).

Definition stopped (reason : string) : ProtocolMessage :=
  VSCODE_EVENT (StoppedEvent reason 1).

(** The first-stop contract on what a session has written: no thread and no
    stopped event at all, or one thread-started event, next to it the first
    stopped event with reason "entry", and after these only stopped events
    with reason "step". *)
Definition first_stop_contract (written : list ProtocolMessage) : Prop :=
  Forall quiet written \/
  exists before after,
    written = before ++ thread_started :: stopped "entry" :: after /\
    Forall quiet before /\
    Forall (fun m => quiet m \/ m = stopped "step") after.

(** The same as an invariant of the session, tied to the flag
    [thread_event_sent]. *)
Definition first_stop_invariant (s : Session) : Prop :=
  (thread_event_sent s = false /\ Forall quiet (out s)) \/
  (thread_event_sent s = true /\
   exists before after,
     out s = before ++ thread_started :: stopped "entry" :: after /\
     Forall quiet before /\
     Forall (fun m => quiet m \/ m = stopped "step") after).

Definition keeps_first_stop (s s' : Session) : Prop :=
  first_stop_invariant s -> first_stop_invariant s'.

(** The input only gets shorter. *)
Definition stdin_shrinks (s s' : Session) : Prop :=
  (length (stdin s') <= length (stdin s))%nat.

(** [R] relates the session before a call to the session its outcome
    carries. *)
Definition related {A : Type} (R : Session -> Session -> Prop)
    (proj : A -> Session) (s : Session) (o : Outcome A) : Prop :=
  match o with
  | Return a => R s (proj a)
  | Exit _ s' => R s s'
  | OutOfFuel => True
  end.

Definition finishes {A : Type} (o : Outcome A) : Prop :=
  match o with
  | OutOfFuel => False
  | _ => True
  end.

(** Modelled from the spec: [totalFrames] is the number of frames emitted;
    the serializer of [protocol.c] is not among the sources. *)
Definition emitted_frames (b : ResponseBody) : list StackFrame :=
  match b with
  | StackTraceResponse stackFrames totalFrames =>
      take (Z.to_nat totalFrames) stackFrames
  | _ => []
  end.

(** The cap on a stackTrace response worded for every [levels]: the number
    of frames emitted is at most the least of [levels], [MAX_STACK_FRAMES]
    and the depth of the stack. *)
Definition frames_capped {H : protocol_h} (req : Request) (levels : Z)
    (L : lua_State) (s : Session) : Prop :=
  forall r,
    handle_stack_trace_request req levels L s = emit (VSCODE_RESPONSE r) s ->
    Z.of_nat (length (emitted_frames (body r))) <=
      Z.min levels (Z.min MAX_STACK_FRAMES (Z.of_nat (length (ci L)))).

(** The scope entry of kind [k] that [handle_scopes_request] writes for the
    frame [frameId]. *)
Definition scope_entry {H : protocol_h} (k : ScopeKind) (frameId : Z) : Scope :=
  {| scope_name :=
       strncpy sizeof_scope_name
         match k with
         | Locals => "Locals"
         | Upvalues => "Up Values"
         | Globals => "Globals"
         end;
     scope_variablesReference := encode_handle k frameId;
     scope_expensive := match k with Globals => true | _ => false end |}.

(** The scope entries of a frame: Locals, Upvalues when the frame has
    upvalues, Globals. *)
Definition scope_entries {H : protocol_h} (frameId : Z) (entry : CallInfo)
  : list Scope :=
  scope_entry Locals frameId ::
  (if 0 <? nups entry then [scope_entry Upvalues frameId] else []) ++
  [scope_entry Globals frameId].





(** The variables contract for Upvalues and Globals as the specification
    words it: a success response (with an empty list). *)
Definition answers_upvalues_globals {H : protocol_h} (req : Request)
    (varRef : Z) (L : lua_State) (s : Session) : Prop :=
  fst (decode_varRef varRef) <> "l"%char ->
  is_Some (lua_getstack L (snd (decode_varRef varRef))) ->
  exists r,
    handle_variables_request req varRef L s = emit (VSCODE_RESPONSE r) s /\
    success r = true.

(** The registry contract as the specification words it: a handle that a
    scopes response for a frame of the stack carries is accepted by a
    variables request on the same stack. *)
Definition accepts_emitted_handles {H : protocol_h} (L : lua_State)
    (frameId : Z) : Prop :=
  forall req s r sc,
    handle_scopes_request req frameId L s = emit (VSCODE_RESPONSE r) s ->
    success r = true ->
    In sc (scopes_of (body r)) ->
    scope_variablesReference sc <> 0 ->
    exists r',
      handle_variables_request req (scope_variablesReference sc) L s =
        emit (VSCODE_RESPONSE r') s /\
      success r' = true.

(** What the [for] of [handle_variables_request] does with the names it
    visits, in order. *)
Definition store_names {H : protocol_h} (x : nat) (names : list string)
    (variables : list VariableEntry) : list VariableEntry :=
  foldl (fun vs local =>
           alter (set_variable_name (strncpy sizeof_variable_name local)) x vs)
    variables names.

(** ** Vocabulary for whole sessions *)

(** The session [debugger] hands to its read loop: when it is entered in
    ProgramRunning the stop is announced and the state is ProgramStopped. *)
Definition stopped_session (s : Session) : Session :=
  if debugger_state s =? DEBUGGER_PROGRAM_RUNNING then
    set_state DEBUGGER_PROGRAM_STOPPED
      (if negb (thread_event_sent s) then
         send_stopped_event "entry"
           (send_thread_event true (set_thread_event_sent true s))
       else send_stopped_event "step" s)
  else s.

(** [R] relates the session before a call to the session it returns, [E]
    to the exit status and the session it exits with. *)
Definition related2 {A : Type} (R : Session -> Session -> Prop)
    (E : Session -> Z -> Session -> Prop) (proj : A -> Session) (s : Session)
    (o : Outcome A) : Prop :=
  match o with
  | Return a => R s (proj a)
  | Exit status s' => E s status s'
  | OutOfFuel => True
  end.

(** A response answers a request: it echoes its [seq] and [command]. *)
Definition echoes (req : Request) (r : Response) : Prop :=
  request_seq r = seq req /\ response_command r = command req.

Definition is_initialize_success (m : ProtocolMessage) : bool :=
  match m with
  | VSCODE_RESPONSE r =>
      match response_type r with
      | VSCODE_INITIALIZE_RESPONSE => success r
      | _ => false
      end
  | _ => false
  end.

Definition is_launch_success (m : ProtocolMessage) : bool :=
  match m with
  | VSCODE_RESPONSE r =>
      match response_type r with
      | VSCODE_LAUNCH_RESPONSE => success r
      | _ => false
      end
  | _ => false
  end.

Definition is_terminated_event (m : ProtocolMessage) : bool :=
  match m with VSCODE_EVENT TerminatedEvent => true | _ => false end.

(** The output events a run that ended in error is followed by. *)
Definition run_error_events (status : option string) (s : Session) : Session :=
  match status with
  | Some msg =>
      send_output_event msg (send_output_event "Program terminated with error" s)
  | None => s
  end.

(** The shapes the outcome of one request can take, and the requests each
    shape belongs to: the response alone; the response and exit, for
    disconnect; the handshake, for initialize below Initialized; the load
    diagnostic and the error response, for a launch in Initialized whose
    program does not load; the success response, the run and what follows
    it, for a launch in Initialized whose program loads. *)
Inductive dispatch_shape {H : protocol_h}
    (lua_pcall : lua_State -> Chunk -> Session -> Outcome (Session * option string))
    (L : lua_State) (req : Request) (s : Session)
  : Outcome (Session * bool) -> Prop :=
| shape_answered (r : Response) (get_command : bool) :
    arguments req <> DisconnectRequest ->
    echoes req r ->
    is_initialize_success (VSCODE_RESPONSE r) = false ->
    is_launch_success (VSCODE_RESPONSE r) = false ->
    (arguments req = InitializeRequest ->
     DEBUGGER_INITIALIZED <= debugger_state s) ->
    (forall program,
       arguments req = LaunchRequest program ->
       debugger_state s <> DEBUGGER_INITIALIZED) ->
    dispatch_shape lua_pcall L req s
      (Return (emit (VSCODE_RESPONSE r) s, get_command))
| shape_disconnected (r : Response) :
    arguments req = DisconnectRequest ->
    echoes req r ->
    response_type r = VSCODE_DISCONNECT_RESPONSE -> success r = true ->
    dispatch_shape lua_pcall L req s (Exit 0 (emit (VSCODE_RESPONSE r) s))
| shape_initialized (r : Response) :
    arguments req <> DisconnectRequest ->
    debugger_state s < DEBUGGER_INITIALIZED ->
    echoes req r ->
    response_type r = VSCODE_INITIALIZE_RESPONSE -> success r = true ->
    arguments req = InitializeRequest ->
    dispatch_shape lua_pcall L req s
      (Return
         (set_state DEBUGGER_INITIALIZED
            (send_output_event "Debugger initialized"
               (emit (VSCODE_RESPONSE r)
                  (emit (VSCODE_EVENT InitializedEvent) s))), true))
| shape_launch_failed (r : Response) (diagnostic : string) :
    arguments req <> DisconnectRequest ->
    debugger_state s = DEBUGGER_INITIALIZED ->
    echoes req r ->
    response_type r = VSCODE_LAUNCH_RESPONSE -> success r = false ->
    (exists program msg,
       arguments req = LaunchRequest program /\
       luaL_loadfile L program = LoadError msg /\
       diagnostic =
         snprintf 1024
           (String.append "Failed to launch "
              (String.append program (String.append " due to error: " msg)))) ->
    dispatch_shape lua_pcall L req s
      (Return (emit (VSCODE_RESPONSE r) (send_output_event diagnostic s), true))
| shape_launched (r : Response) (p : Chunk) :
    arguments req <> DisconnectRequest ->
    debugger_state s = DEBUGGER_INITIALIZED ->
    echoes req r ->
    response_type r = VSCODE_LAUNCH_RESPONSE -> success r = true ->
    (exists program,
       arguments req = LaunchRequest program /\
       luaL_loadfile L program = Loaded p) ->
    dispatch_shape lua_pcall L req s
      (let* (s', status) :=
         lua_pcall L p
           (set_state DEBUGGER_PROGRAM_RUNNING (emit (VSCODE_RESPONSE r) s)) in
       Return
         (set_state DEBUGGER_PROGRAM_TERMINATED
            (send_terminated_event (run_error_events status s')), true)).

(** The [request_seq] of the responses among the messages, in order. *)
Fixpoint response_seqs (ms : list ProtocolMessage) : list Z :=
  match ms with
  | [] => []
  | VSCODE_RESPONSE r :: ms => request_seq r :: response_seqs ms
  | VSCODE_EVENT _ :: ms => response_seqs ms
  end.

(** The [seq] of the requests among the input items, in order. *)
Fixpoint request_seqs (input : list Incoming) : list Z :=
  match input with
  | [] => []
  | Message req :: input => seq req :: request_seqs input
  | _ :: input => request_seqs input
  end.

Fixpoint count (f : ProtocolMessage -> bool) (ms : list ProtocolMessage) : nat :=
  match ms with
  | [] => 0%nat
  | m :: ms => ((if f m then 1 else 0) + count f ms)%nat
  end.

(** The input items on which the read loop exits with status 1. *)
Definition framing_error (item : Incoming) : bool :=
  match item with
  | OversizedHeader _ | ShortBody _ => true
  | _ => false
  end.

(** The input items that end the process: a framing error or a disconnect
    request. *)
Definition exit_item (item : Incoming) : bool :=
  match item with
  | OversizedHeader _ | ShortBody _ => true
  | Message req =>
      match arguments req with DisconnectRequest => true | _ => false end
  | _ => false
  end.

(** Between two points of a session: the input consumed and, for the
    responses written in between, the requests they answer. *)
Definition answers (s s' : Session) (consumed : list Incoming) : Prop :=
  stdin s = consumed ++ stdin s' /\
  response_seqs (out s') = response_seqs (out s) ++ request_seqs consumed.

(** The session went on: every request consumed was answered, and none of
    the items consumed ends the process. *)
Definition answers_all (s s' : Session) : Prop :=
  exists consumed,
    answers s s' consumed /\ Forall (fun item => exit_item item = false) consumed.

(** The process ended: at the first item that ends it, with status 1 for a
    framing error and with status 0, right after the success response, for a
    disconnect request; every request consumed was answered. *)
Definition exits (s : Session) (status : Z) (s' : Session) : Prop :=
  exists before item,
    answers s s' (before ++ [item]) /\
    Forall (fun item => exit_item item = false) before /\
    exit_item item = true /\
    status = (if framing_error item then 1 else 0) /\
    (framing_error item = false ->
     exists req r,
       item = Message req /\
       last (out s') = Some (VSCODE_RESPONSE r) /\
       echoes req r /\ success r = true /\
       response_type r = VSCODE_DISCONNECT_RESPONSE).

(** The milestones of a session, each with the state from which on it lies
    behind and the message that marks it. *)
Inductive Milestone := Handshake | Launch.

Definition milestone_state (k : Milestone) : Z :=
  match k with
  | Handshake => DEBUGGER_INITIALIZED
  | Launch => DEBUGGER_PROGRAM_LAUNCHED
  end.

Definition milestone_mark (k : Milestone) : ProtocolMessage -> bool :=
  match k with
  | Handshake => is_initialize_success
  | Launch => is_launch_success
  end.

(** Once the state has reached the milestone's, its mark is not written
    again and the state stays there; before that, the mark is written at
    most once, and not at all while the state is still below. *)
Definition at_most_once (k : Milestone) (s s' : Session) : Prop :=
  (milestone_state k <= debugger_state s ->
   milestone_state k <= debugger_state s' /\
   count (milestone_mark k) (out s') = count (milestone_mark k) (out s)) /\
  (debugger_state s < milestone_state k ->
   count (milestone_mark k) (out s) = 0%nat ->
   (count (milestone_mark k) (out s') <= 1)%nat /\
   (debugger_state s' < milestone_state k ->
    count (milestone_mark k) (out s') = 0%nat)).

(** No more terminated events are written than launches succeed. *)
Definition terminated_after_launch (s s' : Session) : Prop :=
  (count is_terminated_event (out s') + count is_launch_success (out s) <=
   count is_terminated_event (out s) + count is_launch_success (out s'))%nat.

Definition milestones (s s' : Session) : Prop :=
  (forall k, at_most_once k s s') /\ terminated_after_launch s s'.

(** The line events of a run that reach the hook under the mask. *)
Definition line_events (mask : Z) (events : list HookCall) : nat :=
  length
    (List.filter
       (fun ar => hook_enabled mask (event ar) && (event ar =? LUA_HOOKLINE))
       events).

(** Whether a character occurs in a string. *)
Fixpoint occurs (c : ascii) (s : string) : bool :=
  match s with
  | EmptyString => false
  | String a rest => Ascii.eqb a c || occurs c rest
  end.

(** The chunk name of a source: what follows the leading '@', if there is
    one. *)
Definition chunk_name (source : string) : string :=
  match source with
  | String "@" rest => rest
  | src => src
  end.

(** A configuration of [protocol.h] to run the model on. *)
Definition sample_protocol_h : protocol_h :=
  {| MAX_STACK_FRAMES := 20; MAX_VARIABLES := 250; MAX_SCOPES := 3;
     MAX_THREADS := 1; sizeof_thread_name := 16; sizeof_frame_name := 32;
     sizeof_source_name := 32; sizeof_source_path := 256;
     sizeof_scope_name := 32; sizeof_variable_name := 32;
     behind_local := fun _ _ => "<stack>" |}.

(** A build with room for 300 characters in [source.name] and [source.path],
    and a run of '#' behind the local buffers. *)
Fixpoint fill (n : nat) (c : ascii) : string :=
  match n with
  | O => EmptyString
  | S n => String c (fill n c)
  end.

Definition wide_protocol_h : protocol_h :=
  {| MAX_STACK_FRAMES := 20; MAX_VARIABLES := 250; MAX_SCOPES := 3;
     MAX_THREADS := 1; sizeof_thread_name := 16; sizeof_frame_name := 32;
     sizeof_source_name := 300; sizeof_source_path := 300;
     sizeof_scope_name := 32; sizeof_variable_name := 32;
     behind_local := fun _ _ => fill 100 "#" |}.

(** A chunk whose name has 256 characters and no '/'. *)
Definition long_name_frame : CallInfo :=
  {| source := String "@" (fill 256 "n"); currentline := 1; name := None;
     nups := 0; locals := [] |}.

Definition sample_request (a : RequestArgs) : Request :=
  {| seq := 7; command := "request"; arguments := a |}.

Definition sample_frame : CallInfo :=
  {| source := "@/a/b.lua"; currentline := 1; name := None; nups := 1;
     locals := ["x"; "y"] |}.

Definition sample_chunk : Chunk :=
  {| chunk_events :=
       [ {| event := LUA_HOOKCALL; frames := [sample_frame] |};
         {| event := LUA_HOOKLINE; frames := [sample_frame] |};
         {| event := LUA_HOOKLINE; frames := [sample_frame] |};
         {| event := LUA_HOOKRET; frames := [sample_frame] |} ];
     chunk_error := None |}.

Definition sample_files (path : string) : LoadResult :=
  if String.eqb path "/a/b.lua" then Loaded sample_chunk
  else LoadError "cannot open file".

Definition sample_lua_State (stack : list CallInfo) : lua_State :=
  {| luaL_loadfile := sample_files; hookmask := main_hookmask; ci := stack |}.

Definition sample_session (state : Z) : Session :=
  {| debugger_state := state; thread_event_sent := false; stdin := [];
     out := [] |}.

Definition sample_input : list Incoming :=
  [ Message (sample_request InitializeRequest);
    Message (sample_request (LaunchRequest "/a/b.lua"));
    Message (sample_request (StackTraceRequest 20));
    Message (sample_request (ScopesRequest 0));
    Message (sample_request (VariablesRequest 1000000));
    Message (sample_request NextRequest);
    Message (sample_request (VariablesRequest 3000000));
    Message (sample_request NextRequest);
    Message (sample_request (StackTraceRequest 20)) ].

(** ** Basic facts *)

Arguments snprintf : simpl never.
Arguments strncpy : simpl never.

Lemma wrap_int_id (z : Z) : int_range z -> wrap_int z = z.
Proof.
  unfold int_range, wrap_int. intros Hz.
  rewrite Z.mod_small; lia.
Qed.

Lemma strncpy_fits (n : nat) (text : string) :
  (String.length text <= n)%nat -> strncpy n text = text.
Proof.
  unfold strncpy. revert n.
  induction text as [|c text IH]; intros [|n] Hn; simpl in *;
    try reflexivity; try lia.
  rewrite IH by lia. reflexivity.
Qed.

(** ** Variable references *)

Lemma decode_varRef_type (varRef : Z) :
  fst (decode_varRef varRef) =
    if 3000000 <=? varRef then "g"%char
    else if 2000000 <=? varRef then "u"%char else "l"%char.
Proof.
  unfold decode_varRef.
  destruct (3000000 <=? varRef); [reflexivity|].
  destruct (2000000 <=? varRef); reflexivity.
Qed.

(** C4. For each of the three scope kinds and every frame depth from 0 up to
    but excluding 10^6, decoding the handle [kind_base + depth] gives back
    the kind (as its type character) and the depth. *)
Theorem handle_round_trip (k : ScopeKind) (depth : Z) :
  0 <= depth < 10 ^ 6 ->
  decode_varRef (encode_handle k depth) = (kind_type k, depth).
Proof.
  intros Hd. unfold encode_handle.
  assert (Hr : int_range (kind_base k + depth))
    by (unfold int_range; destruct k; simpl kind_base; lia).
  rewrite (wrap_int_id _ Hr). unfold decode_varRef.
  destruct k; simpl kind_base; simpl kind_type.
  - destruct (Z.leb_spec 3000000 (1000000 + depth)); [lia|].
    destruct (Z.leb_spec 2000000 (1000000 + depth)); [lia|].
    f_equal. rewrite wrap_int_id; [lia | unfold int_range; lia].
  - destruct (Z.leb_spec 3000000 (2000000 + depth)); [lia|].
    destruct (Z.leb_spec 2000000 (2000000 + depth)); [|lia].
    f_equal. rewrite wrap_int_id; [lia | unfold int_range; lia].
  - destruct (Z.leb_spec 3000000 (3000000 + depth)); [|lia].
    f_equal. rewrite wrap_int_id; [lia | unfold int_range; lia].
Qed.

Lemma handle_round_trip_witness :
  decode_varRef (encode_handle Upvalues 3) = ("u"%char, 3).
Proof. apply handle_round_trip. lia. Defined.

(** ** initialize *)

(** C9. An initialize request in state Birth makes the adapter write, in
    this order, the initialized event, a success response whose body has
    [supportsConfigurationDoneRequest] set, and the output event "Debugger
    initialized", and moves the session to Initialized; in any later state
    the answer is an error response and the session state stays as it
    was. *)
Theorem initialize_handshake {H : protocol_h} lua_pcall (L : lua_State) (req : Request)
    (s : Session) :
  arguments req = InitializeRequest ->
  (debugger_state s = DEBUGGER_BIRTH ->
   dispatch lua_pcall L req s =
     Return
       ({| debugger_state := DEBUGGER_INITIALIZED;
           thread_event_sent := thread_event_sent s;
           stdin := stdin s;
           out := out s ++
             [ VSCODE_EVENT InitializedEvent;
               VSCODE_RESPONSE
                 {| request_seq := seq req; response_command := command req;
                    response_type := VSCODE_INITIALIZE_RESPONSE;
                    success := true; message := "";
                    body := InitializeResponse true |};
               VSCODE_EVENT (OutputEvent "console" "Debugger initialized") ] |},
        true)) /\
  (DEBUGGER_INITIALIZED <= debugger_state s ->
   exists r,
     dispatch lua_pcall L req s = Return (emit (VSCODE_RESPONSE r) s, true) /\
     success r = false /\ message r = "already initialized" /\
     request_seq r = seq req).
Proof.
  intros Ha. unfold dispatch. rewrite Ha. unfold handle_initialize_request.
  split.
  - intros Hs. rewrite Hs. simpl.
    unfold set_state, send_output_event, emit. simpl.
    rewrite <- !app_assoc. reflexivity.
  - intros Hs.
    destruct (Z.leb_spec DEBUGGER_INITIALIZED (debugger_state s)); [|lia].
    eexists. split; [reflexivity|]. simpl. auto.
Qed.

Lemma initialize_handshake_witness :
  dispatch (H := sample_protocol_h) (fun _ _ s => Return (s, None))
    (sample_lua_State []) (sample_request InitializeRequest)
    (sample_session DEBUGGER_BIRTH) =
  Return
    ({| debugger_state := DEBUGGER_INITIALIZED; thread_event_sent := false;
        stdin := [];
        out :=
          [ VSCODE_EVENT InitializedEvent;
            VSCODE_RESPONSE
              {| request_seq := 7; response_command := "request";
                 response_type := VSCODE_INITIALIZE_RESPONSE;
                 success := true; message := "";
                 body := InitializeResponse true |};
            VSCODE_EVENT (OutputEvent "console" "Debugger initialized") ] |},
     true).
Proof.
  apply (proj1 (initialize_handshake (H := sample_protocol_h)
                  (fun _ _ s => Return (s, None)) (sample_lua_State [])
                  (sample_request InitializeRequest)
                  (sample_session DEBUGGER_BIRTH) eq_refl)).
  reflexivity.
Defined.

(** ** The hook *)

(** C10. The mask [main] installs the hook with covers call, line and return
    events (and with the call bit, tail calls), yet the read loop is entered
    on line events and on these alone: a hook call for any other event, a
    call, a return or a tail call among them, writes nothing, reads nothing
    and leaves the session as it was, whatever the read loop would have
    done; so does a whole run that raises no line event; and a hook call for
    a line event is the read loop. *)
Theorem hook_enters_on_line_only :
  hook_enabled main_hookmask LUA_HOOKCALL = true /\
  hook_enabled main_hookmask LUA_HOOKLINE = true /\
  hook_enabled main_hookmask LUA_HOOKRET = true /\
  hook_enabled main_hookmask LUA_HOOKTAILCALL = true /\
  (forall dbg (L : lua_State) (event : Z) (s : Session),
     event <> LUA_HOOKLINE ->
     ravi_debughook dbg L event s = Return s) /\
  (forall dbg (L : lua_State) (events : list HookCall) (s : Session),
     Forall (fun ar => event ar <> LUA_HOOKLINE) events ->
     run_events (ravi_debughook dbg) L events s = Return s) /\
  (forall dbg (L : lua_State) (s : Session),
     ravi_debughook dbg L LUA_HOOKLINE s = dbg L s).
Proof.
  assert (Hskip : forall dbg (L : lua_State) (event : Z) (s : Session),
            event <> LUA_HOOKLINE ->
            ravi_debughook dbg L event s = Return s).
  { intros dbg L event s Hevent. unfold ravi_debughook.
    destruct (Z.eqb_spec event LUA_HOOKLINE) as [Heq|_];
      [contradiction|reflexivity]. }
  repeat split; try reflexivity; [exact Hskip|].
  intros dbg L events s Hevents.
  induction Hevents as [|ar events Har _ IH]; cbn [run_events]; [reflexivity|].
  rewrite (Hskip dbg _ _ s Har).
  destruct (hook_enabled (hookmask L) (event ar)); exact IH.
Qed.

Lemma hook_enters_on_line_only_witness :
  ravi_debughook (fun _ s => Exit 1 s) (sample_lua_State [sample_frame])
    LUA_HOOKTAILCALL (sample_session DEBUGGER_PROGRAM_RUNNING) =
  Return (sample_session DEBUGGER_PROGRAM_RUNNING).
Proof.
  apply (proj1 (proj2 (proj2 (proj2 (proj2 hook_enters_on_line_only))))).
  discriminate.
Defined.

(** ** scopes *)

(** C8. A scopes request for a frame that is on the stack is answered with
    success and the scopes array holds, from its first slot on, Locals (not
    expensive), Upvalues (not expensive) exactly when the frame reports more
    than zero upvalues, and Globals (expensive), each with the handle
    encoded from its kind and the frame id, the remaining slots being
    untouched; for a frame that is not on the stack the answer is an error
    response. *)
Theorem scopes_of_frame {H : protocol_h} (req : Request) (frameId : Z)
    (L : lua_State) (s : Session) :
  3 <= MAX_SCOPES ->
  (forall entry, lua_getstack L frameId = Some entry ->
     handle_scopes_request req frameId L s =
       emit (VSCODE_RESPONSE
               {| request_seq := seq req; response_command := command req;
                  response_type := VSCODE_SCOPES_RESPONSE;
                  success := true; message := "";
                  body :=
                    ScopesResponse
                      (scope_entries frameId entry ++
                       replicate
                         (Z.to_nat MAX_SCOPES - length (scope_entries frameId entry))
                         zero_Scope) |}) s) /\
  (lua_getstack L frameId = None ->
     exists r,
       handle_scopes_request req frameId L s = emit (VSCODE_RESPONSE r) s /\
       success r = false /\ message r = "Error retrieving stack frame" /\
       request_seq r = seq req).
Proof.
  intros Hmax. unfold handle_scopes_request. split.
  - intros entry ->. unfold scope_entries, scope_entry, encode_handle.
    simpl kind_base. cbn [vscode_make_success_response body zero_body scopes_of].
    destruct (Z.to_nat MAX_SCOPES) as [|[|[|n]]] eqn:Hn; try lia.
    destruct (0 <? nups entry); cbn; rewrite ?Nat.sub_0_r; reflexivity.
  - intros ->. eexists. split; [reflexivity|]. cbn. auto.
Qed.

Lemma scopes_of_frame_witness :
  exists r,
    handle_scopes_request (H := sample_protocol_h) (sample_request (ScopesRequest 0))
      0 (sample_lua_State [sample_frame]) (sample_session DEBUGGER_PROGRAM_STOPPED) =
    emit (VSCODE_RESPONSE r) (sample_session DEBUGGER_PROGRAM_STOPPED) /\
    body r =
      ScopesResponse
        [ {| scope_name := "Locals"; scope_variablesReference := 1000000;
             scope_expensive := false |};
          {| scope_name := "Up Values"; scope_variablesReference := 2000000;
             scope_expensive := false |};
          {| scope_name := "Globals"; scope_variablesReference := 3000000;
             scope_expensive := true |} ].
Proof.
  eexists. split.
  - apply (proj1 (scopes_of_frame (H := sample_protocol_h)
                    (sample_request (ScopesRequest 0)) 0
                    (sample_lua_State [sample_frame])
                    (sample_session DEBUGGER_PROGRAM_STOPPED)
                    ltac:(vm_compute; discriminate)) sample_frame).
    reflexivity.
  - reflexivity.
Defined.

(** ** launch *)

(** C5. A launch request in state Initialized: when loading fails the
    adapter writes an output event with the load diagnostic and then an
    error response "Launch failed", and the session state stays Initialized;
    when loading succeeds it writes a success response, moves to
    ProgramRunning and runs the program, and once the run returns, with or
    without error, it writes a terminated event and moves to
    ProgramTerminated. *)
Theorem launch_outcomes {H : protocol_h} lua_pcall (L : lua_State)
    (req : Request) (program : string) (s : Session) :
  arguments req = LaunchRequest program ->
  debugger_state s = DEBUGGER_INITIALIZED ->
  match luaL_loadfile L program with
  | LoadError msg =>
      dispatch lua_pcall L req s =
        Return
          ({| debugger_state := DEBUGGER_INITIALIZED;
              thread_event_sent := thread_event_sent s;
              stdin := stdin s;
              out := out s ++
                [ VSCODE_EVENT
                    (OutputEvent "console"
                       (snprintf 1024
                          (String.append "Failed to launch "
                             (String.append program
                                (String.append " due to error: " msg)))));
                  VSCODE_RESPONSE
                    {| request_seq := seq req; response_command := command req;
                       response_type := VSCODE_LAUNCH_RESPONSE;
                       success := false; message := "Launch failed";
                       body := EmptyBody |} ] |}, true)
  | Loaded p =>
      dispatch lua_pcall L req s =
        let* (s', status) :=
          lua_pcall L p
            {| debugger_state := DEBUGGER_PROGRAM_RUNNING;
               thread_event_sent := thread_event_sent s;
               stdin := stdin s;
               out := out s ++
                 [ VSCODE_RESPONSE
                     {| request_seq := seq req; response_command := command req;
                        response_type := VSCODE_LAUNCH_RESPONSE;
                        success := true; message := "";
                        body := EmptyBody |} ] |} in
        Return
          ({| debugger_state := DEBUGGER_PROGRAM_TERMINATED;
              thread_event_sent := thread_event_sent s';
              stdin := stdin s';
              out := out s' ++
                match status with
                | Some msg =>
                    [ VSCODE_EVENT
                        (OutputEvent "console" "Program terminated with error");
                      VSCODE_EVENT (OutputEvent "console" msg) ]
                | None => []
                end ++ [VSCODE_EVENT TerminatedEvent] |}, true)
  end.
Proof.
  intros Ha Hs. unfold dispatch, handle_launch_request. rewrite Ha, Hs.
  simpl negb. cbv iota.
  destruct (luaL_loadfile L program) as [msg|p].
  - unfold send_error_response, send_output_event, emit.
    cbn [out debugger_state thread_event_sent stdin].
    rewrite Hs, <- !app_assoc. reflexivity.
  - unfold send_success_response, set_state, emit.
    cbn [out debugger_state thread_event_sent stdin].
    destruct (lua_pcall L p _) as [[s' [msg|]]| |]; cbn;
      rewrite <- ?app_assoc; reflexivity.
Qed.

Lemma launch_outcomes_witness :
  dispatch (H := sample_protocol_h) (fun _ _ s => Return (s, None))
    (sample_lua_State []) (sample_request (LaunchRequest "nope.lua"))
    (sample_session DEBUGGER_INITIALIZED) =
  Return
    ({| debugger_state := DEBUGGER_INITIALIZED; thread_event_sent := false;
        stdin := [];
        out :=
          [ VSCODE_EVENT
              (OutputEvent "console"
                 "Failed to launch nope.lua due to error: cannot open file");
            VSCODE_RESPONSE
              {| request_seq := 7; response_command := "request";
                 response_type := VSCODE_LAUNCH_RESPONSE;
                 success := false; message := "Launch failed";
                 body := EmptyBody |} ] |}, true).
Proof.
  exact (launch_outcomes (H := sample_protocol_h) (fun _ _ s => Return (s, None))
           (sample_lua_State []) (sample_request (LaunchRequest "nope.lua"))
           "nope.lua" (sample_session DEBUGGER_INITIALIZED) eq_refl eq_refl).
Defined.

(** ** stackTrace *)

Lemma lua_getstack_nat (L : lua_State) (i : nat) :
  lua_getstack L (Z.of_nat i) = ci L !! i.
Proof.
  unfold lua_getstack.
  destruct (Z.ltb_spec (Z.of_nat i) 0); [lia|].
  rewrite Nat2Z.id. reflexivity.
Qed.

(** The [while] of [handle_stack_trace_request], started at [depth] with
    enough turns: where it stops, which slots it fills and which it leaves
    alone. *)
Lemma stack_trace_loop_spec {H : protocol_h} (L : lua_State) (levels : Z) :
  forall (turns : nat) (depth : nat) (arr : list StackFrame),
    (depth <= length (ci L))%nat ->
    (length (ci L) - depth < turns)%nat ->
    exists arr' total,
      stack_trace_loop turns L levels (Z.of_nat depth) arr = (arr', total) /\
      total =
        Z.max (Z.of_nat depth)
          (Z.min levels (Z.min MAX_STACK_FRAMES (Z.of_nat (length (ci L))))) /\
      length arr' = length arr /\
      (forall i : nat,
         (depth <= i)%nat -> Z.of_nat i < total -> (i < length arr)%nat ->
         exists entry,
           ci L !! i = Some entry /\
           arr' !! i = Some (stack_frame_at (Z.of_nat i) entry)) /\
      (forall i : nat,
         (i < depth)%nat \/ total <= Z.of_nat i -> arr' !! i = arr !! i).
Proof.
  induction turns as [|turns IH]; intros depth arr Hle Hturns; [lia|].
  cbn [stack_trace_loop]. rewrite lua_getstack_nat.
  destruct (ci L !! depth) as [entry|] eqn:Hentry.
  - pose proof (lookup_lt_Some _ _ _ Hentry) as Hlt.
    destruct (Z.ltb_spec (Z.of_nat depth) levels) as [Hlev|Hlev];
      [destruct (Z.ltb_spec (Z.of_nat depth) MAX_STACK_FRAMES) as [Hmax|Hmax]|];
      cbn [andb].
    + replace (Z.of_nat depth + 1) with (Z.of_nat (S depth)) by lia.
      rewrite Nat2Z.id.
      destruct (IH (S depth) (<[depth := stack_frame_at (Z.of_nat depth) entry]> arr))
        as (arr' & total & Hrun & Htotal & Hlen & Hfilled & Hkept); [lia|lia|].
      exists arr', total. split; [exact Hrun|].
      split; [lia|]. split; [rewrite Hlen; apply length_insert|].
      split.
      * intros i Hi Hitotal Hiarr.
        destruct (decide (i = depth)) as [->|Hne].
        -- exists entry. split; [exact Hentry|].
           rewrite Hkept by (left; lia).
           apply list_lookup_insert_eq. exact Hiarr.
        -- apply Hfilled; [lia|exact Hitotal|].
           rewrite length_insert. exact Hiarr.
      * intros i Hi. rewrite Hkept by lia.
        apply list_lookup_insert_ne. lia.
    + exists arr, (Z.of_nat depth). repeat split; try lia; intros; lia.
    + exists arr, (Z.of_nat depth). repeat split; try lia; intros; lia.
  - pose proof (lookup_ge_None_1 _ _ Hentry) as Hge.
    exists arr, (Z.of_nat depth). repeat split; try lia; intros; lia.
Qed.

(** C7. A stackTrace request is answered with success, whatever its
    [levels].  The number of frames emitted is the least of [levels],
    [MAX_STACK_FRAMES] and the depth of the stack, and none when that is
    negative: so it is at most that least value when [levels] is not
    negative (the array length [MAX_STACK_FRAMES] is not), and no frame is
    emitted for a negative [levels].  [totalFrames] is the number emitted;
    and the frame emitted at position [depth] describes the stack's frame
    at that depth, has [id = depth] and, for an anonymous function, the
    name "?". *)
Theorem stack_trace_cap {H : protocol_h} (req : Request) (levels : Z)
    (L : lua_State) (s : Session) :
  exists r stackFrames totalFrames,
    handle_stack_trace_request req levels L s = emit (VSCODE_RESPONSE r) s /\
    success r = true /\ request_seq r = seq req /\
    body r = StackTraceResponse stackFrames totalFrames /\
    Z.of_nat (length (emitted_frames (body r))) =
      Z.max 0 (Z.min levels (Z.min MAX_STACK_FRAMES (Z.of_nat (length (ci L))))) /\
    (0 <= levels -> 0 <= MAX_STACK_FRAMES ->
     Z.of_nat (length (emitted_frames (body r))) <=
       Z.min levels (Z.min MAX_STACK_FRAMES (Z.of_nat (length (ci L))))) /\
    (levels < 0 -> emitted_frames (body r) = []) /\
    totalFrames = Z.of_nat (length (emitted_frames (body r))) /\
    forall (depth : nat) (frame : StackFrame),
      emitted_frames (body r) !! depth = Some frame ->
      exists entry,
        lua_getstack L (Z.of_nat depth) = Some entry /\
        frame = stack_frame_at (Z.of_nat depth) entry /\
        frame_id frame = Z.of_nat depth /\
        (name entry = None -> (1 <= sizeof_frame_name)%nat ->
         frame_name frame = "?").
Proof.
  unfold handle_stack_trace_request.
  cbn [vscode_make_success_response body zero_body stackFrames_of].
  destruct (stack_trace_loop_spec L levels (S (length (ci L))) 0
              (replicate (Z.to_nat MAX_STACK_FRAMES) zero_StackFrame))
    as (arr' & total & Hrun & Htotal & Hlen & Hfilled & Hkept); [lia|lia|].
  change (Z.of_nat 0) with 0 in Hrun, Htotal. rewrite Hrun.
  rewrite length_replicate in Hlen.
  assert (Htake : length (take (Z.to_nat total) arr') = Z.to_nat total)
    by (rewrite length_take, Hlen; lia).
  eexists _, arr', total. split; [reflexivity|].
  cbn [success request_seq body set_body emitted_frames].
  split; [reflexivity|]. split; [reflexivity|]. split; [reflexivity|].
  rewrite Htake. split; [lia|]. split; [lia|].
  split; [intros Hneg; replace (Z.to_nat total) with 0%nat by lia; reflexivity|].
  split; [lia|].
  intros depth frame Hframe.
  apply lookup_take_Some in Hframe as [Hframe Hdepth].
  destruct (Hfilled depth) as (entry & Hentry & Hslot);
    [lia|lia|rewrite length_replicate; lia|].
  exists entry. rewrite lua_getstack_nat.
  assert (frame = stack_frame_at (Z.of_nat depth) entry) as -> by congruence.
  repeat split; [exact Hentry|].
  intros Hanon Hsize. cbn [stack_frame_at frame_name]. rewrite Hanon.
  apply strncpy_fits. exact Hsize.
Qed.

Lemma stack_trace_cap_witness :
  exists r,
    handle_stack_trace_request (H := sample_protocol_h)
      (sample_request (StackTraceRequest 20)) 20
      (sample_lua_State [sample_frame])
      (sample_session DEBUGGER_PROGRAM_STOPPED) =
    emit (VSCODE_RESPONSE r) (sample_session DEBUGGER_PROGRAM_STOPPED) /\
    Z.of_nat (length (emitted_frames (body r))) <= 1.
Proof.
  destruct (stack_trace_cap (H := sample_protocol_h)
              (sample_request (StackTraceRequest 20)) 20
              (sample_lua_State [sample_frame])
              (sample_session DEBUGGER_PROGRAM_STOPPED))
    as (r & stackFrames & totalFrames & Hrun & _ & _ & _ & _ & Hcap & _).
  exists r. split; [exact Hrun|].
  exact (Hcap ltac:(lia) ltac:(vm_compute; discriminate)).
Defined.

(** The bound as C7 words it, for every [levels], fails for a negative one:
    a stackTrace request with [levels = -1] on a stack of one frame is
    answered with no frame, and zero is more than the least of -1,
    [MAX_STACK_FRAMES] and 1. *)
Lemma stack_trace_cap_counterexample :
  ~ frames_capped (H := sample_protocol_h)
      (sample_request (StackTraceRequest (-1))) (-1)
      (sample_lua_State [sample_frame])
      (sample_session DEBUGGER_PROGRAM_STOPPED).
Proof.
  intros Hcapped.
  assert (Hrun : exists r,
            handle_stack_trace_request (H := sample_protocol_h)
              (sample_request (StackTraceRequest (-1))) (-1)
              (sample_lua_State [sample_frame])
              (sample_session DEBUGGER_PROGRAM_STOPPED) =
            emit (VSCODE_RESPONSE r) (sample_session DEBUGGER_PROGRAM_STOPPED) /\
            emitted_frames (body r) = [])
    by (eexists; split; vm_compute; reflexivity).
  destruct Hrun as (r & Hrun & Hnone).
  specialize (Hcapped r Hrun). rewrite Hnone in Hcapped.
  vm_compute in Hcapped. apply Hcapped. reflexivity.
Qed.

(** ** variables *)

(** The [for] of [handle_variables_request], started at [n] with enough
    turns: it visits the local names from the [n]-th on, in order, up to the
    one before [MAX_VARIABLES] or the last there is. *)
Lemma variables_loop_spec {H : protocol_h} (entry : CallInfo) (x : nat) :
  forall (turns : nat) (n : Z) (variables : list VariableEntry),
    1 <= n ->
    (Z.to_nat (MAX_VARIABLES - n) <= turns)%nat ->
    variables_loop turns entry n x variables =
      store_names x
        (take (Z.to_nat (MAX_VARIABLES - n))
           (drop (Z.to_nat (n - 1)) (locals entry)))
        variables.
Proof.
  induction turns as [|turns IH]; intros n variables Hn Hturns.
  - replace (Z.to_nat (MAX_VARIABLES - n)) with 0%nat by lia. reflexivity.
  - cbn [variables_loop].
    destruct (Z.ltb_spec n MAX_VARIABLES) as [Hlt|Hge].
    + unfold lua_getlocal. destruct (Z.ltb_spec n 1); [lia|].
      replace (Z.to_nat (MAX_VARIABLES - n))
        with (S (Z.to_nat (MAX_VARIABLES - (n + 1)))) by lia.
      destruct (locals entry !! Z.to_nat (n - 1)) as [local|] eqn:Hlocal.
      * rewrite (drop_S _ _ _ Hlocal). cbn [take store_names foldl].
        rewrite IH by lia.
        replace (S (Z.to_nat (n - 1))) with (Z.to_nat (n + 1 - 1)) by lia.
        reflexivity.
      * rewrite drop_ge by (apply lookup_ge_None_1; exact Hlocal).
        reflexivity.
    + replace (Z.to_nat (MAX_VARIABLES - n)) with 0%nat by lia. reflexivity.
Qed.

Lemma handle_variables_request_eq {H : protocol_h} (req : Request)
    (varRef : Z) (L : lua_State) (s : Session) :
  handle_variables_request req varRef L s =
    emit
      (VSCODE_RESPONSE
         match (if varRef <? 2000000
                then lua_getstack L (wrap_int (varRef - 1000000))
                else None) with
         | Some entry =>
             {| request_seq := seq req; response_command := command req;
                response_type := VSCODE_VARIABLES_RESPONSE;
                success := true; message := "";
                body :=
                  VariablesResponse
                    (store_names 0
                       (take (Z.to_nat (MAX_VARIABLES - 1)) (locals entry))
                       (replicate (Z.to_nat MAX_VARIABLES) zero_VariableEntry)) |}
         | None =>
             vscode_make_error_response req VSCODE_VARIABLES_RESPONSE
               "Error retrieving variables"
         end) s.
Proof.
  unfold handle_variables_request, decode_varRef.
  destruct (Z.leb_spec 3000000 varRef) as [Hg|Hg].
  { destruct (Z.ltb_spec varRef 2000000); [lia|]. reflexivity. }
  destruct (Z.leb_spec 2000000 varRef) as [Hu|Hu].
  { destruct (Z.ltb_spec varRef 2000000); [lia|]. reflexivity. }
  destruct (Z.ltb_spec varRef 2000000); [|lia].
  cbn [Ascii.eqb Bool.eqb].
  destruct (lua_getstack L (wrap_int (varRef - 1000000))) as [entry|];
    [|reflexivity].
  rewrite variables_loop_spec by lia.
  cbn [vscode_make_success_response body zero_body variables_of set_body
         request_seq response_command response_type success message].
  replace (Z.to_nat (1 - 1)) with 0%nat by lia. rewrite drop_0.
  reflexivity.
Qed.

(** C2, as the code has it. A variables request whose handle decodes to
    Upvalues or Globals (2000000 and up) is answered with the error response
    "Error retrieving variables"; one that decodes to Locals of a frame on
    the stack is answered with success after the handler has gone through
    the local names n = 1 .. MAX_VARIABLES-1 in order, up to the first
    absent one; and whenever the decoded frame is not on the stack the
    answer is the error response. *)
Theorem variables_by_kind {H : protocol_h} (req : Request) (varRef : Z)
    (L : lua_State) (s : Session) :
  (2000000 <= varRef ->
   fst (decode_varRef varRef) <> "l"%char /\
   handle_variables_request req varRef L s =
     emit (VSCODE_RESPONSE
             (vscode_make_error_response req VSCODE_VARIABLES_RESPONSE
                "Error retrieving variables")) s) /\
  (forall entry,
     varRef < 2000000 ->
     lua_getstack L (snd (decode_varRef varRef)) = Some entry ->
     fst (decode_varRef varRef) = "l"%char /\
     variables_loop (Z.to_nat MAX_VARIABLES) entry 1 0
         (replicate (Z.to_nat MAX_VARIABLES) zero_VariableEntry) =
       store_names 0 (take (Z.to_nat (MAX_VARIABLES - 1)) (locals entry))
         (replicate (Z.to_nat MAX_VARIABLES) zero_VariableEntry) /\
     handle_variables_request req varRef L s =
       emit (VSCODE_RESPONSE
               {| request_seq := seq req; response_command := command req;
                  response_type := VSCODE_VARIABLES_RESPONSE;
                  success := true; message := "";
                  body :=
                    VariablesResponse
                      (variables_loop (Z.to_nat MAX_VARIABLES) entry 1 0
                         (replicate (Z.to_nat MAX_VARIABLES)
                            zero_VariableEntry)) |}) s) /\
  (lua_getstack L (snd (decode_varRef varRef)) = None ->
   handle_variables_request req varRef L s =
     emit (VSCODE_RESPONSE
             (vscode_make_error_response req VSCODE_VARIABLES_RESPONSE
                "Error retrieving variables")) s).
Proof.
  rewrite handle_variables_request_eq.
  pose proof (decode_varRef_type varRef) as Htype.
  assert (Hloop : forall entry,
            variables_loop (Z.to_nat MAX_VARIABLES) entry 1 0
              (replicate (Z.to_nat MAX_VARIABLES) zero_VariableEntry) =
            store_names 0 (take (Z.to_nat (MAX_VARIABLES - 1)) (locals entry))
              (replicate (Z.to_nat MAX_VARIABLES) zero_VariableEntry)).
  { intros entry. rewrite variables_loop_spec by lia.
    replace (Z.to_nat (1 - 1)) with 0%nat by lia. rewrite drop_0. reflexivity. }
  split; [|split].
  - intros Hhigh. destruct (Z.ltb_spec varRef 2000000); [lia|].
    split; [|reflexivity]. rewrite Htype.
    destruct (3000000 <=? varRef); [discriminate|].
    destruct (Z.leb_spec 2000000 varRef); [discriminate|lia].
  - intros entry Hlow Hframe.
    assert (Hdepth : snd (decode_varRef varRef) = wrap_int (varRef - 1000000)).
    { unfold decode_varRef.
      destruct (Z.leb_spec 3000000 varRef); [lia|].
      destruct (Z.leb_spec 2000000 varRef); [lia|]. reflexivity. }
    rewrite Hdepth in Hframe. rewrite Hframe.
    destruct (Z.ltb_spec varRef 2000000); [|lia].
    split; [|split; [apply Hloop|rewrite Hloop; reflexivity]].
    rewrite Htype.
    destruct (Z.leb_spec 3000000 varRef); [lia|].
    destruct (Z.leb_spec 2000000 varRef); [lia|]. reflexivity.
  - intros Hframe.
    destruct (Z.ltb_spec varRef 2000000) as [Hlow|Hhigh]; [|reflexivity].
    assert (Hdepth : snd (decode_varRef varRef) = wrap_int (varRef - 1000000)).
    { unfold decode_varRef.
      destruct (Z.leb_spec 3000000 varRef); [lia|].
      destruct (Z.leb_spec 2000000 varRef); [lia|]. reflexivity. }
    rewrite Hdepth in Hframe. rewrite Hframe. reflexivity.
Qed.

Lemma variables_by_kind_witness :
  handle_variables_request (H := sample_protocol_h)
    (sample_request (VariablesRequest 3000000)) 3000000
    (sample_lua_State [sample_frame]) (sample_session DEBUGGER_PROGRAM_STOPPED) =
  emit (VSCODE_RESPONSE
          (vscode_make_error_response (H := sample_protocol_h)
             (sample_request (VariablesRequest 3000000))
             VSCODE_VARIABLES_RESPONSE "Error retrieving variables"))
    (sample_session DEBUGGER_PROGRAM_STOPPED).
Proof.
  apply (proj1 (variables_by_kind (H := sample_protocol_h)
                  (sample_request (VariablesRequest 3000000)) 3000000
                  (sample_lua_State [sample_frame])
                  (sample_session DEBUGGER_PROGRAM_STOPPED))).
  lia.
Defined.

(** C2, as the specification words it, fails: the handle 2000000 decodes to
    Upvalues of frame 0, which is on the stack, and the answer is not a
    success response. *)
Lemma variables_by_kind_counterexample :
  ~ answers_upvalues_globals (H := sample_protocol_h)
      (sample_request (VariablesRequest 2000000)) 2000000
      (sample_lua_State [sample_frame])
      (sample_session DEBUGGER_PROGRAM_STOPPED).
Proof.
  intros Hclaim.
  destruct Hclaim as (r & Hrun & Hsuccess).
  - vm_compute. discriminate.
  - vm_compute. eexists. reflexivity.
  - vm_compute in Hrun. injection Hrun as <-. discriminate Hsuccess.
Qed.

(** C3, as the code has it. The decode accepts a handle exactly when it lies
    below 2000000 and the frame it names, [handle - 1000000], is on the
    stack, that is, exactly the Locals handles of frames on the stack; every
    other integer handle, the Upvalues and Globals handles of the scopes
    response among them and also 0, negative values and values below
    1000000, is answered with the error response "Error retrieving
    variables". *)
Theorem variables_reference_decode {H : protocol_h} (req : Request)
    (varRef : Z) (L : lua_State) (s : Session) :
  exists r,
    handle_variables_request req varRef L s = emit (VSCODE_RESPONSE r) s /\
    (success r = true <->
     varRef < 2000000 /\
     is_Some (lua_getstack L (wrap_int (varRef - 1000000)))) /\
    (success r = false -> message r = "Error retrieving variables") /\
    (- 2 ^ 31 + 1000000 <= varRef ->
     (success r = true <->
      exists depth,
        0 <= depth < 10 ^ 6 /\ varRef = encode_handle Locals depth /\
        is_Some (lua_getstack L depth))).
Proof.
  rewrite handle_variables_request_eq. eexists. split; [reflexivity|].
  assert (Hfirst :
    success
      match (if varRef <? 2000000
             then lua_getstack L (wrap_int (varRef - 1000000)) else None) with
      | Some entry =>
          {| request_seq := seq req; response_command := command req;
             response_type := VSCODE_VARIABLES_RESPONSE;
             success := true; message := "";
             body :=
               VariablesResponse
                 (store_names 0
                    (take (Z.to_nat (MAX_VARIABLES - 1)) (locals entry))
                    (replicate (Z.to_nat MAX_VARIABLES) zero_VariableEntry)) |}
      | None =>
          vscode_make_error_response req VSCODE_VARIABLES_RESPONSE
            "Error retrieving variables"
      end = true <->
    varRef < 2000000 /\
    is_Some (lua_getstack L (wrap_int (varRef - 1000000)))).
  { destruct (Z.ltb_spec varRef 2000000) as [Hlow|Hhigh].
    - destruct (lua_getstack L (wrap_int (varRef - 1000000))) as [entry|];
        cbn [success vscode_make_error_response].
      + split; [intros _; split; [exact Hlow|eexists; reflexivity]|reflexivity].
      + split; [discriminate|]. intros [_ [entry Hentry]]. discriminate.
    - cbn [success vscode_make_error_response].
      split; [discriminate|]. intros [Hlow _]. lia. }
  split; [exact Hfirst|]. split.
  - destruct (if varRef <? 2000000
              then lua_getstack L (wrap_int (varRef - 1000000)) else None);
      [discriminate|reflexivity].
  - intros Hrange. rewrite Hfirst. unfold encode_handle. simpl kind_base.
    split.
    + intros [Hlow Hframe].
      rewrite wrap_int_id in Hframe by (unfold int_range; lia).
      exists (varRef - 1000000).
      assert (0 <= varRef - 1000000).
      { destruct Hframe as [entry Hentry]. unfold lua_getstack in Hentry.
        destruct (Z.ltb_spec (varRef - 1000000) 0); [discriminate|lia]. }
      split; [lia|]. split; [|exact Hframe].
      rewrite wrap_int_id by (unfold int_range; lia). lia.
    + intros (depth & Hdepth & -> & Hframe).
      rewrite !wrap_int_id by (unfold int_range; lia).
      split; [lia|]. replace (1000000 + depth - 1000000) with depth by lia.
      exact Hframe.
Qed.

Lemma variables_reference_decode_witness :
  exists r,
    handle_variables_request (H := sample_protocol_h)
      (sample_request (VariablesRequest 0)) 0
      (sample_lua_State [sample_frame]) (sample_session DEBUGGER_PROGRAM_STOPPED) =
    emit (VSCODE_RESPONSE r) (sample_session DEBUGGER_PROGRAM_STOPPED) /\
    success r = false /\ message r = "Error retrieving variables".
Proof.
  destruct (variables_reference_decode (H := sample_protocol_h)
              (sample_request (VariablesRequest 0)) 0
              (sample_lua_State [sample_frame])
              (sample_session DEBUGGER_PROGRAM_STOPPED))
    as (r & Hrun & _ & Hmsg & Hlocals).
  exists r. split; [exact Hrun|].
  assert (Hfalse : success r = false).
  { apply not_true_is_false. intros Hs.
    apply Hlocals in Hs as (depth & Hdepth & Hhandle & _); [|lia].
    unfold encode_handle in Hhandle. simpl kind_base in Hhandle.
    rewrite wrap_int_id in Hhandle by (unfold int_range; lia). lia. }
  split; [exact Hfalse|apply Hmsg; exact Hfalse].
Defined.

(** C3, as the specification words it, fails: the scopes response for
    frame 0 carries the Globals handle 3000000, and a variables request with
    that handle on the same stack is not accepted. *)
Lemma variables_reference_decode_counterexample :
  ~ accepts_emitted_handles (H := sample_protocol_h)
      (sample_lua_State [sample_frame]) 0.
Proof.
  intros Hclaim.
  edestruct (Hclaim (sample_request (ScopesRequest 0))
               (sample_session DEBUGGER_PROGRAM_STOPPED))
    as (r' & Hrun & Hsuccess).
  - vm_compute. reflexivity.
  - reflexivity.
  - cbn [body scopes_of].
    right. right. left. reflexivity.
  - cbn. discriminate.
  - vm_compute in Hrun. injection Hrun as <-. discriminate Hsuccess.
Qed.

(** ** State legality *)




(** ** What every path through the adapter preserves *)

Section Preservation.
Context {H : protocol_h}.
Variable R : Session -> Session -> Prop.
Hypothesis R_refl : forall s, R s s.
Hypothesis R_trans : forall s1 s2 s3, R s1 s2 -> R s2 s3 -> R s1 s3.
Hypothesis R_emit : forall m s, quiet m -> R s (emit m s).
Hypothesis R_set_state : forall st s, R s (set_state st s).
Hypothesis R_set_stdin :
  forall item rest s, stdin s = item :: rest -> R s (set_stdin rest s).
Hypothesis R_first_stop :
  forall s, thread_event_sent s = false ->
    R s (send_stopped_event "entry"
           (send_thread_event true (set_thread_event_sent true s))).
Hypothesis R_later_stop :
  forall s, thread_event_sent s = true -> R s (send_stopped_event "step" s).

Lemma related_trans {A : Type} (proj : A -> Session) (s1 s2 : Session)
    (o : Outcome A) :
  R s1 s2 -> related R proj s2 o -> related R proj s1 o.
Proof. intros H12. destruct o; cbn; eauto. Qed.

Lemma R_response (r : Response) (s : Session) : R s (emit (VSCODE_RESPONSE r) s).
Proof. apply R_emit. split; reflexivity. Qed.

Lemma R_output (msg : string) (s : Session) : R s (send_output_event msg s).
Proof. apply R_emit. split; reflexivity. Qed.

Lemma R_initialize (req : Request) (s : Session) :
  R s (handle_initialize_request req s).
Proof.
  unfold handle_initialize_request.
  destruct (DEBUGGER_INITIALIZED <=? debugger_state s).
  - apply R_response.
  - eapply R_trans; [|apply R_set_state].
    eapply R_trans; [|apply R_output].
    eapply R_trans; [|apply R_response].
    apply R_emit. split; reflexivity.
Qed.

Lemma R_stack_trace (req : Request) (levels : Z) (L : lua_State) (s : Session) :
  R s (handle_stack_trace_request req levels L s).
Proof.
  unfold handle_stack_trace_request.
  destruct (stack_trace_loop _ _ _ _ _). apply R_response.
Qed.

Lemma R_thread (req : Request) (s : Session) : R s (handle_thread_request req s).
Proof. apply R_response. Qed.

Lemma R_scopes (req : Request) (frameId : Z) (L : lua_State) (s : Session) :
  R s (handle_scopes_request req frameId L s).
Proof. apply R_response. Qed.

Lemma R_variables (req : Request) (varRef : Z) (L : lua_State) (s : Session) :
  R s (handle_variables_request req varRef L s).
Proof.
  unfold handle_variables_request.
  destruct (decode_varRef varRef). apply R_response.
Qed.

Lemma R_launch lua_pcall (req : Request) (program : string) (L : lua_State)
    (s : Session) :
  (forall L p s, related R fst s (lua_pcall L p s)) ->
  related R id s (handle_launch_request lua_pcall req program L s).
Proof.
  intros Hrun. unfold handle_launch_request.
  destruct (negb _); [apply R_response|].
  destruct (luaL_loadfile L program) as [msg|p].
  - cbn. eapply R_trans; [apply R_output|apply R_response].
  - eapply related_trans;
      [eapply R_trans; [apply R_response|apply R_set_state]|].
    match goal with |- context [lua_pcall ?a ?b ?c] =>
      specialize (Hrun a b c); destruct (lua_pcall a b c) as [[s' status]| |]
    end; cbn [bind related fst id] in *; try exact Hrun.
    eapply R_trans; [exact Hrun|].
    eapply R_trans; [|apply R_set_state].
    eapply R_trans; [|apply R_emit; split; reflexivity].
    destruct status as [msg|]; [|apply R_refl].
    eapply R_trans; apply R_output.
Qed.

Lemma R_dispatch lua_pcall (L : lua_State) (req : Request) (s : Session) :
  (forall L p s, related R fst s (lua_pcall L p s)) ->
  related R fst s (dispatch lua_pcall L req s).
Proof.
  intros Hrun. unfold dispatch.
  destruct (arguments req); cbn [related fst bind];
    try apply R_response; try apply R_initialize; try apply R_stack_trace;
    try apply R_thread; try apply R_scopes; try apply R_variables.
  pose proof (R_launch lua_pcall req program L s Hrun) as Hlaunch.
  destruct (handle_launch_request lua_pcall req program L s); exact Hlaunch.
Qed.

Lemma R_debugger loop (L : lua_State) (s : Session) :
  (forall L s, related R id s (loop L s)) ->
  related R id s (debugger loop L s).
Proof.
  intros Hloop. unfold debugger.
  destruct (debugger_state s =? DEBUGGER_PROGRAM_TERMINATED); [apply R_refl|].
  match goal with |- context [loop L ?s1] =>
    assert (Hstop : R s s1); [|specialize (Hloop L s1);
      destruct (loop L s1); cbn in *; eauto]
  end.
  destruct (debugger_state s =? DEBUGGER_PROGRAM_RUNNING); [|apply R_refl].
  eapply R_trans; [|apply R_set_state].
  destruct (thread_event_sent s) eqn:Hsent; cbn [negb]; auto.
Qed.

Lemma R_hook dbg (L : lua_State) (event : Z) (s : Session) :
  (forall L s, related R id s (dbg L s)) ->
  related R id s (ravi_debughook dbg L event s).
Proof.
  intros Hdbg. unfold ravi_debughook.
  destruct (event =? LUA_HOOKLINE); [apply Hdbg|apply R_refl].
Qed.

Lemma R_run_events hook (L : lua_State) (events : list HookCall) :
  (forall L event s, related R id s (hook L event s)) ->
  forall s, related R id s (run_events hook L events s).
Proof.
  intros Hhook. induction events as [|ar events IH]; intros s;
    cbn [run_events]; [apply R_refl|].
  destruct (hook_enabled (hookmask L) (event ar)); cbn [bind]; [|apply IH].
  specialize (Hhook (set_ci (frames ar) L) (event ar) s).
  destruct (hook _ _ s) as [s'| |]; cbn [bind related] in *; try assumption.
  eapply related_trans; [exact Hhook|apply IH].
Qed.

Lemma R_lua_pcall hook (L : lua_State) (p : Chunk) (s : Session) :
  (forall L event s, related R id s (hook L event s)) ->
  related R fst s (lua_pcall hook L p s).
Proof.
  intros Hhook. unfold lua_pcall.
  pose proof (R_run_events hook L (chunk_events p) Hhook s) as Hrun.
  destruct (run_events hook L (chunk_events p) s); exact Hrun.
Qed.

Lemma R_command_loop (fuel : nat) :
  forall (L : lua_State) (s : Session), related R id s (command_loop fuel L s).
Proof.
  induction fuel as [|fuel IH]; intros L s; [exact I|].
  cbn [command_loop].
  destruct (stdin s) as [|item rest] eqn:Hin; [apply R_refl|].
  pose proof (R_set_stdin item rest s Hin) as Htake.
  destruct item as [line|len| |len|req]; cbn [related id]; try exact Htake.
  - eapply related_trans; [exact Htake|apply IH].
  - assert (Hrun : forall L p s,
              related R fst s
                (lua_pcall (ravi_debughook (debugger (command_loop fuel))) L p s)).
    { intros L' p s'. apply R_lua_pcall. intros L'' event s''.
      apply R_hook. intros L3 s3. apply R_debugger. exact IH. }
    pose proof (R_dispatch _ L req (set_stdin rest s) Hrun) as Hreq.
    destruct (dispatch _ L req (set_stdin rest s)) as [[s' get_command]| |];
      cbn [bind related fst] in *.
    + destruct get_command.
      * eapply related_trans; [eapply R_trans; eassumption|apply IH].
      * eapply R_trans; eassumption.
    + eapply R_trans; eassumption.
    + exact I.
Qed.

Lemma R_main (fuel : nat) (files : string -> LoadResult) (input : list Incoming) :
  related R id (initial_session input) (main fuel files input).
Proof. unfold main. apply R_debugger. apply R_command_loop. Qed.

End Preservation.

(** ** The input only shrinks, and enough fuel is the length of the input *)

Lemma shrinks_command_loop {H : protocol_h} (fuel : nat) (L : lua_State)
    (s : Session) :
  related stdin_shrinks id s (command_loop fuel L s).
Proof.
  apply R_command_loop; unfold stdin_shrinks; intros; cbn; try lia.
  match goal with Hin : stdin _ = _ |- _ => rewrite Hin end. cbn. lia.
Qed.

Lemma finishes_dispatch {H : protocol_h} lua_pcall (L : lua_State)
    (req : Request) (s : Session) :
  (forall p s', stdin s' = stdin s -> finishes (lua_pcall L p s')) ->
  finishes (dispatch lua_pcall L req s).
Proof.
  intros Hrun. unfold dispatch.
  destruct (arguments req); try exact I.
  unfold handle_launch_request.
  destruct (negb _); [exact I|].
  destruct (luaL_loadfile L program) as [msg|p]; [exact I|].
  match goal with |- context [lua_pcall L p ?s1] =>
    specialize (Hrun p s1 eq_refl); destruct (lua_pcall L p s1) as [[s' status]| |]
  end; cbn in *; auto.
Qed.

Lemma finishes_debugger {H : protocol_h} loop (L : lua_State) (s : Session) :
  (forall s', stdin s' = stdin s -> finishes (loop L s')) ->
  finishes (debugger loop L s).
Proof.
  intros Hloop. unfold debugger.
  destruct (debugger_state s =? DEBUGGER_PROGRAM_TERMINATED); [exact I|].
  match goal with |- context [loop L ?s1] =>
    assert (Hsame : stdin s1 = stdin s); [|specialize (Hloop s1 Hsame);
      destruct (loop L s1); cbn in *; auto]
  end.
  destruct (debugger_state s =? DEBUGGER_PROGRAM_RUNNING); [|reflexivity].
  destruct (thread_event_sent s); reflexivity.
Qed.

Lemma finishes_run_events {H : protocol_h} hook (L : lua_State)
    (events : list HookCall) (n : nat) :
  (forall L event s, related stdin_shrinks id s (hook L event s)) ->
  (forall L event s, (length (stdin s) <= n)%nat -> finishes (hook L event s)) ->
  forall s, (length (stdin s) <= n)%nat -> finishes (run_events hook L events s).
Proof.
  intros Hshrinks Hfinishes.
  induction events as [|ar events IH]; intros s Hn; cbn [run_events];
    [exact I|].
  destruct (hook_enabled (hookmask L) (event ar)); cbn [bind]; [|apply IH, Hn].
  specialize (Hshrinks (set_ci (frames ar) L) (event ar) s).
  specialize (Hfinishes (set_ci (frames ar) L) (event ar) s Hn).
  destruct (hook _ _ s) as [s'| |]; cbn [bind related finishes id] in *;
    try assumption.
  apply IH. unfold stdin_shrinks in Hshrinks. lia.
Qed.

Lemma finishes_command_loop {H : protocol_h} (fuel : nat) :
  forall (L : lua_State) (s : Session),
    (length (stdin s) < fuel)%nat -> finishes (command_loop fuel L s).
Proof.
  induction fuel as [|fuel IH]; intros L s Hfuel; [lia|].
  cbn [command_loop].
  destruct (stdin s) as [|item rest] eqn:Hin; [exact I|].
  cbn [length] in Hfuel.
  destruct item as [line|len| |len|req]; try exact I.
  - apply IH. cbn. lia.
  - set (hook := ravi_debughook (debugger (command_loop fuel))).
    assert (Hshrinks : forall L event s, related stdin_shrinks id s (hook L event s)).
    { intros L' event s'. unfold hook.
      apply R_hook; unfold stdin_shrinks; intros; cbn; try lia.
      apply R_debugger; unfold stdin_shrinks; intros; cbn; try lia.
      apply shrinks_command_loop. }
    assert (Hfinishes : forall L event s,
              (length (stdin s) <= length rest)%nat -> finishes (hook L event s)).
    { intros L' event s' Hlen. unfold hook, ravi_debughook.
      destruct (event =? LUA_HOOKLINE); [|exact I].
      apply finishes_debugger. intros s'' Hsame. apply IH. rewrite Hsame. lia. }
    assert (Hrun : finishes (dispatch (lua_pcall hook) L req (set_stdin rest s))).
    { apply finishes_dispatch. intros p s' Hsame. unfold lua_pcall.
      pose proof (finishes_run_events hook L (chunk_events p) (length rest)
                    Hshrinks Hfinishes s') as Hevents.
      destruct (run_events hook L (chunk_events p) s'); cbn in *; auto.
      apply Hevents. rewrite Hsame. cbn. lia. }
    assert (Hlen : related stdin_shrinks fst (set_stdin rest s)
                     (dispatch (lua_pcall hook) L req (set_stdin rest s))).
    { apply R_dispatch; unfold stdin_shrinks; intros; cbn; try lia.
      apply R_lua_pcall; unfold stdin_shrinks; intros; cbn; try lia.
      apply Hshrinks. }
    destruct (dispatch (lua_pcall hook) L req (set_stdin rest s))
      as [[s' get_command]| |]; cbn [bind related finishes fst] in *;
      try assumption.
    destruct get_command; [|exact I].
    apply IH. unfold stdin_shrinks in Hlen. cbn in Hlen. lia.
Qed.

Lemma finishes_main {H : protocol_h} (fuel : nat) (files : string -> LoadResult)
    (input : list Incoming) :
  (length input < fuel)%nat -> finishes (main fuel files input).
Proof.
  intros Hfuel. unfold main. apply finishes_debugger.
  intros s' Hsame. apply finishes_command_loop. rewrite Hsame. exact Hfuel.
Qed.

(** More fuel does not change an outcome that was reached. *)

Lemma stable_finishes {A B : Type} (o : Outcome A) (k : A -> Outcome B) :
  finishes (bind o k) -> finishes o.
Proof. destruct o; cbn; auto. Qed.

Lemma stable_debugger {H : protocol_h} loop1 loop2 (L : lua_State) (s : Session) :
  (forall L s, finishes (loop1 L s) -> loop2 L s = loop1 L s) ->
  finishes (debugger loop1 L s) -> debugger loop2 L s = debugger loop1 L s.
Proof.
  intros Hloop. unfold debugger.
  destruct (debugger_state s =? DEBUGGER_PROGRAM_TERMINATED); [reflexivity|].
  intros Hfin. apply stable_finishes in Hfin. rewrite (Hloop _ _ Hfin).
  reflexivity.
Qed.

Lemma stable_run_events hook1 hook2 (L : lua_State) (events : list HookCall) :
  (forall L event s, finishes (hook1 L event s) -> hook2 L event s = hook1 L event s) ->
  forall s, finishes (run_events hook1 L events s) ->
    run_events hook2 L events s = run_events hook1 L events s.
Proof.
  intros Hhook. induction events as [|ar events IH]; intros s Hfin;
    cbn [run_events] in *; [reflexivity|].
  destruct (hook_enabled (hookmask L) (event ar)); cbn [bind] in *;
    [|apply IH, Hfin].
  rewrite (Hhook _ _ _ (stable_finishes _ _ Hfin)).
  destruct (hook1 _ _ s) as [s'| |]; cbn [bind] in *;
    [apply IH, Hfin|reflexivity|reflexivity].
Qed.

Lemma stable_dispatch {H : protocol_h} pcall1 pcall2 (L : lua_State)
    (req : Request) (s : Session) :
  (forall L p s, finishes (pcall1 L p s) -> pcall2 L p s = pcall1 L p s) ->
  finishes (dispatch pcall1 L req s) ->
  dispatch pcall2 L req s = dispatch pcall1 L req s.
Proof.
  intros Hrun. unfold dispatch.
  destruct (arguments req); try reflexivity.
  unfold handle_launch_request.
  destruct (negb _); [reflexivity|].
  destruct (luaL_loadfile L program) as [msg|p]; [reflexivity|].
  intros Hfin. do 2 apply stable_finishes in Hfin.
  rewrite (Hrun _ _ _ Hfin). reflexivity.
Qed.

Lemma stable_command_loop {H : protocol_h} (fuel : nat) :
  forall (more : nat) (L : lua_State) (s : Session),
    (fuel <= more)%nat -> finishes (command_loop fuel L s) ->
    command_loop more L s = command_loop fuel L s.
Proof.
  induction fuel as [|fuel IH]; intros more L s Hmore Hfin; [contradiction|].
  destruct more as [|more]; [lia|].
  cbn [command_loop] in *.
  destruct (stdin s) as [|item rest]; [reflexivity|].
  destruct item as [line|len| |len|req]; try reflexivity.
  - apply IH; [lia|exact Hfin].
  - assert (Hhook : forall L event s,
              finishes (ravi_debughook (debugger (command_loop fuel)) L event s) ->
              ravi_debughook (debugger (command_loop more)) L event s =
              ravi_debughook (debugger (command_loop fuel)) L event s).
    { intros L' event s'. unfold ravi_debughook.
      destruct (event =? LUA_HOOKLINE); [|reflexivity].
      apply stable_debugger. intros L'' s'' Hfin''. apply IH; [lia|exact Hfin'']. }
    rewrite (stable_dispatch
               (lua_pcall (ravi_debughook (debugger (command_loop fuel))))
               (lua_pcall (ravi_debughook (debugger (command_loop more))))).
    + destruct (dispatch _ L req (set_stdin rest s)) as [[s' get_command]| |];
        cbn [bind] in *; try reflexivity.
      destruct get_command; [|reflexivity]. apply IH; [lia|exact Hfin].
    + intros L' p s' Hfin'. unfold lua_pcall in *.
      rewrite (stable_run_events _ _ L' (chunk_events p) Hhook s'
                 (stable_finishes _ _ Hfin')).
      reflexivity.
    + exact (stable_finishes _ _ Hfin).
Qed.

(** The outcome of [main] is the same for every amount of fuel above the
    length of the input. *)
Lemma main_fuel {H : protocol_h} (fuel : nat) (files : string -> LoadResult)
    (input : list Incoming) :
  (length input < fuel)%nat ->
  main fuel files input = main (S (length input)) files input.
Proof.
  intros Hfuel. unfold main. apply stable_debugger.
  - intros L s Hfin. apply stable_command_loop; [lia|exact Hfin].
  - apply (finishes_main (S (length input)) files input). lia.
Qed.

(** ** The first stop *)

Lemma first_stop_emit (m : ProtocolMessage) (s : Session) :
  quiet m -> keeps_first_stop s (emit m s).
Proof.
  intros Hm [[Hsent Hquiet]|(Hsent & before & after & Hout & Hbefore & Hafter)].
  - left. split; [exact Hsent|]. cbn. apply Forall_app. split; [exact Hquiet|].
    repeat constructor; apply Hm.
  - right. split; [exact Hsent|]. exists before, (after ++ [m]).
    cbn. rewrite Hout, <- app_assoc. split; [reflexivity|].
    split; [exact Hbefore|]. apply Forall_app. split; [exact Hafter|].
    constructor; [left; exact Hm|constructor].
Qed.

Lemma first_stop_entry {H : protocol_h} (s : Session) :
  thread_event_sent s = false ->
  keeps_first_stop s
    (send_stopped_event "entry"
       (send_thread_event true (set_thread_event_sent true s))).
Proof.
  intros Hsent [[_ Hquiet]|[Hyes _]]; [|congruence].
  right. split; [reflexivity|]. exists (out s), []. cbn.
  rewrite <- app_assoc. split; [reflexivity|]. split; [exact Hquiet|constructor].
Qed.

Lemma first_stop_step {H : protocol_h} (s : Session) :
  thread_event_sent s = true -> keeps_first_stop s (send_stopped_event "step" s).
Proof.
  intros Hsent [[Hno _]|(_ & before & after & Hout & Hbefore & Hafter)];
    [congruence|].
  right. split; [exact Hsent|]. exists before, (after ++ [stopped "step"]).
  cbn. rewrite Hout, <- app_assoc. split; [reflexivity|].
  split; [exact Hbefore|]. apply Forall_app. split; [exact Hafter|].
  constructor; [right; reflexivity|constructor].
Qed.

Lemma first_stop_main {H : protocol_h} (fuel : nat) (files : string -> LoadResult)
    (input : list Incoming) :
  related keeps_first_stop id (initial_session input) (main fuel files input).
Proof.
  apply R_main.
  - intros s Hs. exact Hs.
  - intros s1 s2 s3 H12 H23 Hs. apply H23, H12, Hs.
  - exact first_stop_emit.
  - intros st s Hs. exact Hs.
  - intros item rest s _ Hs. exact Hs.
  - exact first_stop_entry.
  - exact first_stop_step.
Qed.

Lemma first_stop_invariant_contract (s : Session) :
  first_stop_invariant s -> first_stop_contract (out s).
Proof.
  intros [[_ Hquiet]|(_ & before & after & Hout & Hbefore & Hafter)].
  - left. exact Hquiet.
  - right. exists before, after. auto.
Qed.

(** C6. On a line event in state ProgramRunning the hook writes, before its
    read loop takes anything off the input, the thread-started event and the
    stopped event with reason "entry" if no thread event was sent yet, and
    only a stopped event with reason "step" otherwise; every hook call of a
    run finds the session in ProgramRunning; and what a whole session, from
    [main] on any input and any files, has written holds no thread or
    stopped event at all, or exactly one thread-started event, next to it
    the first stopped event, with reason "entry", and after these only
    stopped events with reason "step". *)
Theorem first_stop_session {H : protocol_h} :
  (forall loop (L : lua_State) (s : Session),
     debugger_state s = DEBUGGER_PROGRAM_RUNNING ->
     thread_event_sent s = false ->
     debugger loop L s =
       let* s' := loop L
                    {| debugger_state := DEBUGGER_PROGRAM_STOPPED;
                       thread_event_sent := true;
                       stdin := stdin s;
                       out := out s ++ [thread_started; stopped "entry"] |} in
       Return (set_state DEBUGGER_PROGRAM_RUNNING s')) /\
  (forall loop (L : lua_State) (s : Session),
     debugger_state s = DEBUGGER_PROGRAM_RUNNING ->
     thread_event_sent s = true ->
     debugger loop L s =
       let* s' := loop L
                    {| debugger_state := DEBUGGER_PROGRAM_STOPPED;
                       thread_event_sent := true;
                       stdin := stdin s;
                       out := out s ++ [stopped "step"] |} in
       Return (set_state DEBUGGER_PROGRAM_RUNNING s')) /\
  (forall loop (L : lua_State) (events : list HookCall) (s : Session),
     debugger_state s = DEBUGGER_PROGRAM_RUNNING ->
     match run_events (ravi_debughook (debugger loop)) L events s with
     | Return s' => debugger_state s' = DEBUGGER_PROGRAM_RUNNING
     | _ => True
     end) /\
  (forall (fuel : nat) (files : string -> LoadResult) (input : list Incoming),
     (length input < fuel)%nat ->
     exists s,
       (main fuel files input = Return s \/
        exists status, main fuel files input = Exit status s) /\
       first_stop_contract (out s)).
Proof.
  split; [|split; [|split]].
  - intros loop L s Hstate Hsent. unfold debugger. rewrite Hstate, Hsent.
    cbn [Z.eqb Pos.eqb negb DEBUGGER_PROGRAM_RUNNING DEBUGGER_PROGRAM_TERMINATED].
    unfold send_stopped_event, send_thread_event, set_thread_event_sent,
      set_state, emit, thread_started, stopped.
    cbn [out debugger_state thread_event_sent stdin
           vscode_make_thread_event vscode_make_stopped_event].
    rewrite <- app_assoc. reflexivity.
  - intros loop L s Hstate Hsent. unfold debugger. rewrite Hstate, Hsent.
    cbn [Z.eqb Pos.eqb negb DEBUGGER_PROGRAM_RUNNING DEBUGGER_PROGRAM_TERMINATED].
    unfold send_stopped_event, set_state, emit, stopped.
    cbn [out debugger_state thread_event_sent stdin vscode_make_stopped_event].
    rewrite Hsent. reflexivity.
  - intros loop L events. induction events as [|ar events IH]; intros s Hstate;
      cbn [run_events]; [exact Hstate|].
    destruct (hook_enabled (hookmask L) (event ar)); cbn [bind];
      [|apply IH, Hstate].
    unfold ravi_debughook.
    destruct (event ar =? LUA_HOOKLINE); cbn [bind]; [|apply IH, Hstate].
    unfold debugger. rewrite Hstate.
    cbn [Z.eqb Pos.eqb DEBUGGER_PROGRAM_RUNNING DEBUGGER_PROGRAM_TERMINATED].
    destruct (loop _ _) as [s'| |]; cbn [bind]; [|exact I|exact I].
    apply IH. reflexivity.
  - intros fuel files input Hfuel.
    pose proof (finishes_main fuel files input Hfuel) as Hfinishes.
    pose proof (first_stop_main fuel files input) as Hkeeps.
    assert (Hstart : first_stop_invariant (initial_session input))
      by (left; split; [reflexivity|constructor]).
    destruct (main fuel files input) as [s|status s|];
      cbn [related finishes id] in *; [| |contradiction].
    + exists s. split; [left; reflexivity|].
      apply first_stop_invariant_contract, Hkeeps, Hstart.
    + exists s. split; [right; exists status; reflexivity|].
      apply first_stop_invariant_contract, Hkeeps, Hstart.
Qed.

Lemma first_stop_session_witness :
  exists s,
    (main (H := sample_protocol_h) 20 sample_files sample_input = Return s \/
     exists status,
       main (H := sample_protocol_h) 20 sample_files sample_input = Exit status s) /\
    first_stop_contract (out s).
Proof.
  apply (proj2 (proj2 (proj2 (first_stop_session (H := sample_protocol_h))))).
  cbn. lia.
Defined.

(** ** The model at work *)

(** The stack trace at entry of [/a/b.lua]: one frame, anonymous, line 1. *)
Example stack_trace_at_entry :
  exists r,
    handle_stack_trace_request (H := sample_protocol_h)
      (sample_request (StackTraceRequest 20)) 20
      (sample_lua_State [sample_frame])
      (sample_session DEBUGGER_PROGRAM_STOPPED) =
    emit (VSCODE_RESPONSE r) (sample_session DEBUGGER_PROGRAM_STOPPED) /\
    emitted_frames (body r) =
      [ {| frame_id := 0; frame_name := "?";
           frame_source := {| source_name := "b.lua"; source_path := "/a/b.lua" |};
           frame_line := 1 |} ].
Proof. eexists. split; vm_compute; reflexivity. Qed.

(** The locals of a frame with the names x and y: both are visited, and
    since the slot index stays at 0 the second name is the one left in
    [variables[0]]. *)
Example locals_of_sample_frame :
  variables_loop (H := sample_protocol_h) 250 sample_frame 1 0
    (replicate 3 zero_VariableEntry) =
  [ set_variable_name "y" zero_VariableEntry; zero_VariableEntry;
    zero_VariableEntry ].
Proof. vm_compute. reflexivity. Qed.

(** A whole session: handshake, launch, two stops, end of the program, and
    a stackTrace after the end, which is answered with success and no
    frames. *)
Example sample_session_run :
  exists s,
    main (H := sample_protocol_h) 20 sample_files sample_input = Return s /\
    map (fun m =>
           match m with
           | VSCODE_EVENT e => inl e
           | VSCODE_RESPONSE r => inr (response_type r, success r)
           end) (out s) =
      [ inl InitializedEvent;
        inr (VSCODE_INITIALIZE_RESPONSE, true);
        inl (OutputEvent "console" "Debugger initialized");
        inr (VSCODE_LAUNCH_RESPONSE, true);
        inl (ThreadEvent true 1);
        inl (StoppedEvent "entry" 1);
        inr (VSCODE_STACK_TRACE_RESPONSE, true);
        inr (VSCODE_SCOPES_RESPONSE, true);
        inr (VSCODE_VARIABLES_RESPONSE, true);
        inr (VSCODE_NEXT_RESPONSE, true);
        inl (StoppedEvent "step" 1);
        inr (VSCODE_VARIABLES_RESPONSE, false);
        inr (VSCODE_NEXT_RESPONSE, true);
        inl TerminatedEvent;
        inr (VSCODE_STACK_TRACE_RESPONSE, true) ].
Proof. eexists. split; vm_compute; reflexivity. Qed.

(** ** One request, one response *)

Lemma debugger_stopped_session {H : protocol_h} loop (L : lua_State) (s : Session) :
  debugger loop L s =
    if debugger_state s =? DEBUGGER_PROGRAM_TERMINATED then Return s
    else let* s' := loop L (stopped_session s) in
         Return (set_state DEBUGGER_PROGRAM_RUNNING s').
Proof. reflexivity. Qed.

Lemma dispatch_has_shape {H : protocol_h} lua_pcall (L : lua_State)
    (req : Request) (s : Session) :
  dispatch_shape lua_pcall L req s (dispatch lua_pcall L req s).
Proof.
  unfold dispatch.
  destruct (arguments req) as [|program|levels|frameId|varRef| | | | | | | |code]
    eqn:Hargs;
    try (assert (Hnot : arguments req <> DisconnectRequest)
           by (rewrite Hargs; discriminate)).
  - unfold handle_initialize_request.
    destruct (Z.leb_spec DEBUGGER_INITIALIZED (debugger_state s)).
    + apply shape_answered;
        [exact Hnot|split; reflexivity|reflexivity|reflexivity
        |intros _; assumption|intros; congruence].
    + apply (shape_initialized lua_pcall L req s
               (set_body (InitializeResponse true)
                  (vscode_make_success_response req VSCODE_INITIALIZE_RESPONSE)));
        [exact Hnot|assumption|split; reflexivity|reflexivity|reflexivity
        |exact Hargs].
  - unfold handle_launch_request.
    destruct (Z.eqb_spec (debugger_state s) DEBUGGER_INITIALIZED) as [Hs|Hs];
      cbn [negb bind].
    + destruct (luaL_loadfile L program) as [msg|p] eqn:Hload.
      * apply shape_launch_failed;
          [exact Hnot|assumption|split; reflexivity|reflexivity|reflexivity|].
        exists program, msg. repeat split; assumption.
      * pose proof (shape_launched lua_pcall L req s
                      (vscode_make_success_response req VSCODE_LAUNCH_RESPONSE) p
                      Hnot Hs (conj eq_refl eq_refl) eq_refl eq_refl
                      (ex_intro _ program (conj Hargs Hload))) as Hshape.
        unfold send_success_response.
        destruct (lua_pcall L p _) as [[s' status]| |]; exact Hshape.
    + apply shape_answered;
        [exact Hnot|split; reflexivity|reflexivity|reflexivity
        |intros; congruence|intros; assumption].
  - unfold handle_stack_trace_request.
    destruct (stack_trace_loop _ _ _ _ _).
    apply shape_answered;
      [exact Hnot|split; reflexivity|reflexivity|reflexivity
      |intros; congruence..].
  - unfold handle_scopes_request.
    destruct (lua_getstack L frameId) as [entry|];
      [destruct (0 <? nups entry)|];
      (apply shape_answered;
         [exact Hnot|split; reflexivity|reflexivity|reflexivity
         |intros; congruence..]).
  - unfold handle_variables_request.
    destruct (decode_varRef varRef) as [type depth].
    destruct (if Ascii.eqb type "l" then lua_getstack L depth else None);
      (apply shape_answered;
         [exact Hnot|split; reflexivity|reflexivity|reflexivity
         |intros; congruence..]).
  - apply shape_disconnected; [assumption|split| |]; reflexivity.
  - apply shape_answered;
      [exact Hnot|split; reflexivity|reflexivity|reflexivity
      |intros; congruence..].
  - apply shape_answered;
      [exact Hnot|split; reflexivity|reflexivity|reflexivity
      |intros; congruence..].
  - apply shape_answered;
      [exact Hnot|split; reflexivity|reflexivity|reflexivity
      |intros; congruence..].
  - apply shape_answered;
      [exact Hnot|split; reflexivity|reflexivity|reflexivity
      |intros; congruence..].
  - apply shape_answered;
      [exact Hnot|split; reflexivity|reflexivity|reflexivity
      |intros; congruence..].
  - apply shape_answered;
      [exact Hnot|split; reflexivity|reflexivity|reflexivity
      |intros; congruence..].
  - apply shape_answered;
      [exact Hnot|split; reflexivity|reflexivity|reflexivity
      |intros; congruence..].
Qed.

(** Every request is answered with exactly one response, which echoes the
    request's [seq] and [command].  Apart from that response a request
    writes nothing and leaves the session alone, with three exceptions, each
    tied to its command and state: an initialize request below Initialized
    (the initialized event before the response, the output event after it,
    state Initialized); a launch request in Initialized (the load diagnostic
    before the error response when the program does not load, else the
    success response, the run and the terminated event); and a disconnect
    request (exit with status 0 right after the response).  An initialize
    request at or above Initialized and a launch request outside Initialized
    get their response alone. *)
Theorem one_response_per_request {H : protocol_h} lua_pcall (L : lua_State)
    (req : Request) (s : Session) :
  dispatch_shape lua_pcall L req s (dispatch lua_pcall L req s).
Proof. apply dispatch_has_shape. Qed.

(** ** What every path through a session preserves *)

Section Sessions.
Context {H : protocol_h}.
Variable R : Session -> Session -> Prop.
Variable E : Session -> Z -> Session -> Prop.
Hypothesis R_refl : forall s, R s s.
Hypothesis R_trans : forall s1 s2 s3, R s1 s2 -> R s2 s3 -> R s1 s3.
Hypothesis RE_trans : forall s1 s2 status s3, R s1 s2 -> E s2 status s3 -> E s1 status s3.
Hypothesis R_skip :
  forall item rest s,
    stdin s = item :: rest -> framing_error item = false ->
    (forall req, item <> Message req) -> R s (set_stdin rest s).
Hypothesis E_framing :
  forall item rest s,
    stdin s = item :: rest -> framing_error item = true ->
    E s 1 (set_stdin rest s).
Hypothesis R_stopped : forall s, R s (stopped_session s).
Hypothesis R_resume : forall s, R s (set_state DEBUGGER_PROGRAM_RUNNING s).
Hypothesis R_request :
  forall lua_pcall (L : lua_State) req rest s o,
    stdin s = Message req :: rest ->
    dispatch_shape lua_pcall L req (set_stdin rest s) o ->
    (forall L p s, related2 R E fst s (lua_pcall L p s)) ->
    related2 R E fst s o.

Lemma related2_trans {A : Type} (proj : A -> Session) (s1 s2 : Session)
    (o : Outcome A) :
  R s1 s2 -> related2 R E proj s2 o -> related2 R E proj s1 o.
Proof. intros H12. destruct o; cbn; eauto. Qed.

Lemma session_debugger loop (L : lua_State) (s : Session) :
  (forall L s, related2 R E id s (loop L s)) ->
  related2 R E id s (debugger loop L s).
Proof.
  intros Hloop. rewrite debugger_stopped_session.
  destruct (debugger_state s =? DEBUGGER_PROGRAM_TERMINATED); [apply R_refl|].
  eapply related2_trans; [apply R_stopped|].
  specialize (Hloop L (stopped_session s)).
  destruct (loop L (stopped_session s)); cbn [bind related2 id] in *; eauto.
Qed.

Lemma session_hook dbg (L : lua_State) (event : Z) (s : Session) :
  (forall L s, related2 R E id s (dbg L s)) ->
  related2 R E id s (ravi_debughook dbg L event s).
Proof.
  intros Hdbg. unfold ravi_debughook.
  destruct (event =? LUA_HOOKLINE); [apply Hdbg|apply R_refl].
Qed.

Lemma session_run_events hook (L : lua_State) (events : list HookCall) :
  (forall L event s, related2 R E id s (hook L event s)) ->
  forall s, related2 R E id s (run_events hook L events s).
Proof.
  intros Hhook. induction events as [|ar events IH]; intros s;
    cbn [run_events]; [apply R_refl|].
  destruct (hook_enabled (hookmask L) (event ar)); cbn [bind]; [|apply IH].
  specialize (Hhook (set_ci (frames ar) L) (event ar) s).
  destruct (hook _ _ s) as [s'| |]; cbn [bind related2 id] in *;
    try assumption.
  eapply related2_trans; [exact Hhook|apply IH].
Qed.

Lemma session_lua_pcall hook (L : lua_State) (p : Chunk) (s : Session) :
  (forall L event s, related2 R E id s (hook L event s)) ->
  related2 R E fst s (lua_pcall hook L p s).
Proof.
  intros Hhook. unfold lua_pcall.
  pose proof (session_run_events hook L (chunk_events p) Hhook s) as Hrun.
  destruct (run_events hook L (chunk_events p) s); exact Hrun.
Qed.

Lemma session_command_loop (fuel : nat) :
  forall (L : lua_State) (s : Session),
    related2 R E id s (command_loop fuel L s).
Proof.
  induction fuel as [|fuel IH]; intros L s; [exact I|].
  cbn [command_loop].
  destruct (stdin s) as [|item rest] eqn:Hin; [apply R_refl|].
  destruct item as [line|len| |len|req]; cbn [related2 id].
  - eapply related2_trans; [|apply IH].
    apply (R_skip _ _ _ Hin); [reflexivity|discriminate].
  - apply (E_framing _ _ _ Hin). reflexivity.
  - apply (R_skip _ _ _ Hin); [reflexivity|discriminate].
  - apply (E_framing _ _ _ Hin). reflexivity.
  - assert (Hrun : forall L p s,
              related2 R E fst s
                (lua_pcall (ravi_debughook (debugger (command_loop fuel))) L p s)).
    { intros L' p s'. apply session_lua_pcall. intros L'' event s''.
      apply session_hook. intros L3 s3. apply session_debugger. exact IH. }
    pose proof (R_request _ L req rest s _ Hin
                  (dispatch_has_shape _ L req (set_stdin rest s)) Hrun)
      as Hreq.
    destruct (dispatch _ L req (set_stdin rest s)) as [[s' get_command]| |];
      cbn [bind related2 fst] in *; try assumption.
    destruct get_command; [|exact Hreq].
    eapply related2_trans; [exact Hreq|apply IH].
Qed.

Lemma session_main (fuel : nat) (files : string -> LoadResult)
    (input : list Incoming) :
  related2 R E id (initial_session input) (main fuel files input).
Proof. unfold main. apply session_debugger. apply session_command_loop. Qed.

End Sessions.

(** ** Requests and their responses over a whole session *)

Lemma response_seqs_app (ms1 ms2 : list ProtocolMessage) :
  response_seqs (ms1 ++ ms2) = response_seqs ms1 ++ response_seqs ms2.
Proof.
  induction ms1 as [|[e|r] ms1 IH]; cbn; [reflexivity|exact IH|].
  rewrite IH. reflexivity.
Qed.

Lemma request_seqs_app (input1 input2 : list Incoming) :
  request_seqs (input1 ++ input2) = request_seqs input1 ++ request_seqs input2.
Proof.
  induction input1 as [|[line|len| |len|req] input1 IH]; cbn;
    try exact IH; [reflexivity|].
  rewrite IH. reflexivity.
Qed.

Lemma answers_all_refl (s : Session) : answers_all s s.
Proof.
  exists []. split; [|constructor]. split; [reflexivity|].
  cbn. rewrite app_nil_r. reflexivity.
Qed.

Lemma answers_trans (s1 s2 s3 : Session) (consumed1 consumed2 : list Incoming) :
  answers s1 s2 consumed1 -> answers s2 s3 consumed2 ->
  answers s1 s3 (consumed1 ++ consumed2).
Proof.
  intros [Hin1 Hout1] [Hin2 Hout2]. split.
  - rewrite Hin1, Hin2, app_assoc. reflexivity.
  - rewrite Hout2, Hout1, request_seqs_app, app_assoc. reflexivity.
Qed.

Lemma answers_all_trans (s1 s2 s3 : Session) :
  answers_all s1 s2 -> answers_all s2 s3 -> answers_all s1 s3.
Proof.
  intros (consumed1 & H1 & Hok1) (consumed2 & H2 & Hok2).
  exists (consumed1 ++ consumed2). split; [eapply answers_trans; eassumption|].
  apply Forall_app. split; assumption.
Qed.

Lemma exits_trans (s1 s2 : Session) (status : Z) (s3 : Session) :
  answers_all s1 s2 -> exits s2 status s3 -> exits s1 status s3.
Proof.
  intros (consumed1 & H1 & Hok1)
    (before & item & H2 & Hbefore & Hitem & Hstatus & Hlast).
  exists (consumed1 ++ before), item. rewrite <- app_assoc.
  split; [eapply answers_trans; eassumption|].
  split; [apply Forall_app; split; assumption|]. auto.
Qed.

(** Writing an event, or setting the state or the flag, answers nothing and
    consumes nothing. *)
Lemma answers_all_quiet (s s' : Session) :
  stdin s' = stdin s -> response_seqs (out s') = response_seqs (out s) ->
  answers_all s s'.
Proof.
  intros Hin Hout. exists []. split; [|constructor]. split.
  - rewrite Hin. reflexivity.
  - rewrite Hout. cbn. rewrite app_nil_r. reflexivity.
Qed.

Lemma answers_all_stopped (s : Session) : answers_all s (stopped_session s).
Proof.
  apply answers_all_quiet; unfold stopped_session;
    destruct (debugger_state s =? DEBUGGER_PROGRAM_RUNNING); try reflexivity;
    destruct (thread_event_sent s); cbn; rewrite ?response_seqs_app; cbn;
    rewrite ?app_nil_r; reflexivity.
Qed.

(** Taking a request off the input and writing a response that echoes it. *)
Lemma answers_request (req : Request) (rest : list Incoming) (s s' : Session)
    (r : Response) (before after : list ProtocolMessage) :
  stdin s = Message req :: rest ->
  echoes req r ->
  stdin s' = rest ->
  out s' = out s ++ before ++ VSCODE_RESPONSE r :: after ->
  response_seqs before = [] -> response_seqs after = [] ->
  answers s s' [Message req].
Proof.
  intros Hin [Hseq _] Hin' Hout Hbefore Hafter. split.
  - rewrite Hin, Hin'. reflexivity.
  - rewrite Hout, !response_seqs_app. cbn.
    rewrite Hbefore, Hafter, Hseq. reflexivity.
Qed.

Lemma exit_item_request (req : Request) :
  arguments req <> DisconnectRequest -> exit_item (Message req) = false.
Proof. intros Hnot. cbn. destruct (arguments req); congruence. Qed.

Lemma session_answers {H : protocol_h} (fuel : nat) (files : string -> LoadResult)
    (input : list Incoming) :
  related2 answers_all exits id (initial_session input) (main fuel files input).
Proof.
  apply session_main.
  - exact answers_all_refl.
  - exact answers_all_trans.
  - exact exits_trans.
  - intros item rest s Hin Hframing Hnot. exists [item]. split.
    + split; [exact Hin|].
      destruct item; cbn; rewrite ?app_nil_r; try reflexivity.
      exfalso. eapply Hnot. reflexivity.
    + constructor; [|constructor].
      destruct item; try reflexivity; try discriminate Hframing.
      exfalso. eapply Hnot. reflexivity.
  - intros item rest s Hin Hframing. exists [], item. cbn [app].
    split; [split; [exact Hin|]|].
    { destruct item; try discriminate Hframing; cbn; rewrite app_nil_r;
        reflexivity. }
    split; [constructor|].
    split; [destruct item; try discriminate Hframing; reflexivity|].
    rewrite Hframing. split; [reflexivity|discriminate].
  - exact answers_all_stopped.
  - intros s. apply answers_all_quiet; reflexivity.
  - intros lua_pcall L req rest s o Hin Hshape Hrun.
    destruct Hshape as [r get_command Hnot Hecho _ _ _ _
                       |r Hargs Hecho Htype Hsuccess
                       |r Hnot _ Hecho _ _ _|r diagnostic Hnot _ Hecho _ _ _
                       |r p Hnot _ Hecho _ _ _]; cbn [related2 fst].
    + exists [Message req]. split; [|repeat constructor; apply exit_item_request, Hnot].
      apply (answers_request req rest s _ r [] []); auto.
    + exists [], (Message req). cbn [app].
      split; [apply (answers_request req rest s _ r [] []); auto|].
      split; [constructor|]. cbn [exit_item framing_error]. rewrite Hargs.
      split; [reflexivity|]. split; [reflexivity|]. intros _.
      exists req, r. split; [reflexivity|].
      split; [apply last_snoc|auto].
    + exists [Message req]. split; [|repeat constructor; apply exit_item_request, Hnot].
      apply (answers_request req rest s _ r
               [VSCODE_EVENT InitializedEvent]
               [VSCODE_EVENT (OutputEvent "console" "Debugger initialized")]);
        auto.
      cbn. rewrite <- !app_assoc. reflexivity.
    + exists [Message req]. split; [|repeat constructor; apply exit_item_request, Hnot].
      apply (answers_request req rest s _ r
               [VSCODE_EVENT (OutputEvent "console" diagnostic)] []); auto.
      cbn. rewrite <- !app_assoc. reflexivity.
    + assert (Hfirst : answers_all s
                (set_state DEBUGGER_PROGRAM_RUNNING
                   (emit (VSCODE_RESPONSE r) (set_stdin rest s)))).
      { exists [Message req].
        split; [|repeat constructor; apply exit_item_request, Hnot].
        apply (answers_request req rest s _ r [] []); auto. }
      specialize (Hrun L p (set_state DEBUGGER_PROGRAM_RUNNING
                              (emit (VSCODE_RESPONSE r) (set_stdin rest s)))).
      destruct (lua_pcall L p _) as [[s' status]|status s'|];
        cbn [bind related2 fst] in *.
      * eapply answers_all_trans; [exact Hfirst|].
        eapply answers_all_trans; [exact Hrun|].
        apply answers_all_quiet; [destruct status; reflexivity|].
        destruct status; cbn; rewrite ?response_seqs_app; cbn;
          rewrite ?app_nil_r; reflexivity.
      * eapply exits_trans; eassumption.
      * exact I.
Qed.

(** In a session the responses written are, in order, the answers to the
    requests consumed: whether [main] returns or the process exits, the
    input splits into what was consumed and what is left, and the
    [request_seq]s of the responses are the [seq]s of the consumed
    requests. *)
Theorem responses_follow_requests {H : protocol_h} (files : string -> LoadResult)
    (input : list Incoming) :
  match main (S (length input)) files input with
  | Return s | Exit _ s =>
      exists consumed,
        input = consumed ++ stdin s /\
        response_seqs (out s) = request_seqs consumed
  | OutOfFuel => False
  end.
Proof.
  pose proof (finishes_main (S (length input)) files input (Nat.lt_succ_diag_r _))
    as Hfinishes.
  pose proof (session_answers (S (length input)) files input) as Hanswers.
  destruct (main (S (length input)) files input) as [s|status s|];
    cbn [related2 finishes id] in *; [| |exact Hfinishes].
  - destruct Hanswers as (consumed & [Hin Hout] & _). exists consumed. auto.
  - destruct Hanswers as (before & item & [Hin Hout] & _).
    exists (before ++ [item]). auto.
Qed.

(** How a session ends.  [main] returns only if no item it consumed was a
    disconnect request or a framing error; otherwise the process exits at
    the first such item, with status 1 for a framing error and with status
    0 for a disconnect request, whose success response is then the last
    message written. *)
Theorem exit_status {H : protocol_h} (files : string -> LoadResult)
    (input : list Incoming) :
  match main (S (length input)) files input with
  | Return s =>
      exists consumed,
        input = consumed ++ stdin s /\
        Forall (fun item => exit_item item = false) consumed
  | Exit status s =>
      exists before item,
        input = before ++ item :: stdin s /\
        Forall (fun item => exit_item item = false) before /\
        exit_item item = true /\
        status = (if framing_error item then 1 else 0) /\
        (framing_error item = false ->
         exists req r,
           item = Message req /\
           last (out s) = Some (VSCODE_RESPONSE r) /\
           echoes req r /\ success r = true /\
           response_type r = VSCODE_DISCONNECT_RESPONSE)
  | OutOfFuel => False
  end.
Proof.
  pose proof (finishes_main (S (length input)) files input (Nat.lt_succ_diag_r _))
    as Hfinishes.
  pose proof (session_answers (S (length input)) files input) as Hanswers.
  destruct (main (S (length input)) files input) as [s|status s|];
    cbn [related2 finishes id] in *; [| |exact Hfinishes].
  - destruct Hanswers as (consumed & [Hin Hout] & Hok). exists consumed. auto.
  - destruct Hanswers as (before & item & [Hin Hout] & Hrest).
    exists before, item. rewrite <- app_assoc in Hin. auto.
Qed.

(** ** Handshake, launch and termination happen once *)

Lemma count_app (f : ProtocolMessage -> bool) (ms1 ms2 : list ProtocolMessage) :
  count f (ms1 ++ ms2) = (count f ms1 + count f ms2)%nat.
Proof. induction ms1 as [|m ms1 IH]; cbn; [reflexivity|rewrite IH; lia]. Qed.

Lemma count_emit (f : ProtocolMessage -> bool) (m : ProtocolMessage) (s : Session) :
  count f (out (emit m s)) = (count f (out s) + if f m then 1 else 0)%nat.
Proof. cbn. rewrite count_app. cbn. lia. Qed.

Ltac states :=
  cbn [milestone_state debugger_state set_state] in *;
  unfold DEBUGGER_BIRTH, DEBUGGER_INITIALIZED, DEBUGGER_PROGRAM_LAUNCHED,
    DEBUGGER_PROGRAM_RUNNING, DEBUGGER_PROGRAM_STOPPED,
    DEBUGGER_PROGRAM_TERMINATED in *.

Lemma once_refl (s : Session) : forall k, at_most_once k s s.
Proof. intros k. split; [auto|]. intros _ Hzero. rewrite Hzero. auto. Qed.

Lemma once_trans (s1 s2 s3 : Session) :
  (forall k, at_most_once k s1 s2) -> (forall k, at_most_once k s2 s3) ->
  forall k, at_most_once k s1 s3.
Proof.
  intros H12 H23 k. destruct (H12 k) as [A12 B12], (H23 k) as [A23 B23]. split.
  - intros Hs1. destruct (A12 Hs1) as [Hs2 Hc2].
    destruct (A23 Hs2) as [Hs3 Hc3]. split; [exact Hs3|congruence].
  - intros Hs1 Hzero. destruct (B12 Hs1 Hzero) as [Hone Hbelow].
    destruct (Z.lt_ge_cases (debugger_state s2) (milestone_state k)) as [Hs2|Hs2].
    + apply B23; auto.
    + destruct (A23 Hs2) as [Hs3 Hc3]. rewrite Hc3. split; [exact Hone|lia].
Qed.

(** What does not write a mark and does not take the state below a
    milestone keeps it. *)
Lemma once_keep (s s' : Session) :
  (forall k, count (milestone_mark k) (out s') = count (milestone_mark k) (out s)) ->
  (forall k, milestone_state k <= debugger_state s ->
             milestone_state k <= debugger_state s') ->
  forall k, at_most_once k s s'.
Proof.
  intros Hmarks Hstate k. split; [auto|].
  intros _ Hzero. rewrite Hmarks, Hzero. auto.
Qed.

Lemma milestones_refl (s : Session) : milestones s s.
Proof. split; [apply once_refl|unfold terminated_after_launch; lia]. Qed.

Lemma milestones_trans (s1 s2 s3 : Session) :
  milestones s1 s2 -> milestones s2 s3 -> milestones s1 s3.
Proof.
  intros [H12 T12] [H23 T23].
  split; [eapply once_trans; eassumption|].
  unfold terminated_after_launch in *. lia.
Qed.

Lemma milestones_keep (s s' : Session) :
  (forall k, count (milestone_mark k) (out s') = count (milestone_mark k) (out s)) ->
  count is_terminated_event (out s') = count is_terminated_event (out s) ->
  (forall k, milestone_state k <= debugger_state s ->
             milestone_state k <= debugger_state s') ->
  milestones s s'.
Proof.
  intros Hmarks Hterm Hstate. split; [apply once_keep; assumption|].
  unfold terminated_after_launch. pose proof (Hmarks Launch) as Hlaunch.
  cbn [milestone_mark] in Hlaunch. rewrite Hterm, Hlaunch. reflexivity.
Qed.

Lemma milestones_stopped (s : Session) : milestones s (stopped_session s).
Proof.
  unfold stopped_session.
  destruct (Z.eqb_spec (debugger_state s) DEBUGGER_PROGRAM_RUNNING) as [Hs|Hs];
    [|apply milestones_refl].
  apply milestones_keep.
  - intros k. destruct (thread_event_sent s), k; cbn; rewrite ?count_app; cbn;
      lia.
  - destruct (thread_event_sent s); cbn; rewrite ?count_app; cbn; lia.
  - intros k _. destruct (thread_event_sent s), k; states; lia.
Qed.

Lemma milestones_respond (r : Response) (rest : list Incoming) (s : Session) :
  is_initialize_success (VSCODE_RESPONSE r) = false ->
  is_launch_success (VSCODE_RESPONSE r) = false ->
  milestones s (emit (VSCODE_RESPONSE r) (set_stdin rest s)).
Proof.
  intros Hinit Hlaunch. apply milestones_keep.
  - intros k. rewrite count_emit. cbn [out set_stdin].
    destruct k; cbn [milestone_mark]; [rewrite Hinit|rewrite Hlaunch]; lia.
  - rewrite count_emit. cbn. lia.
  - auto.
Qed.

Lemma session_milestones {H : protocol_h} (fuel : nat)
    (files : string -> LoadResult) (input : list Incoming) :
  related2 milestones (fun s _ s' => milestones s s') id
    (initial_session input) (main fuel files input).
Proof.
  apply session_main.
  - exact milestones_refl.
  - exact milestones_trans.
  - intros s1 s2 _ s3. apply milestones_trans.
  - intros item rest s _ _ _. apply milestones_keep; auto.
  - intros item rest s _ _. apply milestones_keep; auto.
  - exact milestones_stopped.
  - intros s. apply milestones_keep; auto.
    intros k _. destruct k; states; lia.
  - intros lua_pcall L req rest s o Hin Hshape Hrun.
    destruct Hshape as [r get_command _ _ Hinit Hlaunch _ _|r _ _ Htype _
                       |r _ Hstate _ Htype Hsuccess _
                       |r diagnostic _ Hstate _ Htype Hsuccess _
                       |r p _ Hstate _ Htype Hsuccess _];
      cbn [related2 fst]; try (cbn [debugger_state set_stdin] in Hstate).
    + apply milestones_respond; assumption.
    + apply milestones_respond; cbn; rewrite Htype; reflexivity.
    + split.
      * intros k. split.
        -- intros Hk. destruct k; states; lia.
        -- intros _ Hzero. destruct k; cbn in Hzero |- *; rewrite !count_app;
             cbn; rewrite Htype, ?Hsuccess, Hzero; states; lia.
      * unfold terminated_after_launch. cbn. rewrite !count_app. cbn.
        rewrite Htype. lia.
    + apply milestones_keep; auto.
      * intros k. destruct k; cbn; rewrite !count_app; cbn;
          rewrite Htype, ?Hsuccess; lia.
      * cbn. rewrite !count_app. cbn. lia.
    + set (s1 := set_state DEBUGGER_PROGRAM_RUNNING
                   (emit (VSCODE_RESPONSE r) (set_stdin rest s))) in *.
      assert (Hinit1 : count is_initialize_success (out s1) =
                       count is_initialize_success (out s))
        by (cbn; rewrite count_app; cbn; rewrite Htype; lia).
      assert (Hlaunch1 : count is_launch_success (out s1) =
                         S (count is_launch_success (out s)))
        by (cbn; rewrite count_app; cbn; rewrite Htype, Hsuccess; lia).
      assert (Hterm1 : count is_terminated_event (out s1) =
                       count is_terminated_event (out s))
        by (cbn; rewrite count_app; cbn; lia).
      assert (Hstate1 : debugger_state s1 = DEBUGGER_PROGRAM_RUNNING)
        by reflexivity.
      clearbody s1.
      assert (Honce1 : forall k, at_most_once k s s1).
      { intros k. unfold at_most_once. rewrite Hstate, Hstate1. split.
        - intros Hk. destruct k; [|states; lia].
          split; [states; lia|exact Hinit1].
        - intros Hk Hzero. destruct k; [states; lia|].
          cbn [milestone_mark] in *. rewrite Hlaunch1, Hzero.
          split; [lia|]. states. lia. }
      specialize (Hrun L p s1).
      destruct (lua_pcall L p s1) as [[s' status]|status s'|];
        cbn [bind related2 fst] in *; [| |exact I].
      * destruct Hrun as [Honce Hterm]. split.
        -- eapply once_trans; [exact Honce1|].
           eapply once_trans; [exact Honce|].
           apply once_keep.
           ++ intros k. destruct status, k; cbn; rewrite ?count_app; cbn; lia.
           ++ intros k _. destruct k; states; lia.
        -- unfold terminated_after_launch in *.
           replace (count is_terminated_event
                      (out (set_state DEBUGGER_PROGRAM_TERMINATED
                              (send_terminated_event (run_error_events status s')))))
             with (S (count is_terminated_event (out s')))
             by (destruct status; cbn; rewrite ?count_app; cbn; lia).
           replace (count is_launch_success
                      (out (set_state DEBUGGER_PROGRAM_TERMINATED
                              (send_terminated_event (run_error_events status s')))))
             with (count is_launch_success (out s'))
             by (destruct status; cbn; rewrite ?count_app; cbn; lia).
           lia.
      * destruct Hrun as [Honce Hterm]. split.
        -- eapply once_trans; eassumption.
        -- unfold terminated_after_launch in *. lia.
Qed.

(** In a session the handshake succeeds at most once and a launch succeeds
    at most once, and there are never more terminated events than successful
    launches, so at most one: whatever the input, the success responses to
    initialize and to launch and the terminated event are each written at
    most once. *)
Theorem milestones_once {H : protocol_h} (files : string -> LoadResult)
    (input : list Incoming) :
  match main (S (length input)) files input with
  | Return s | Exit _ s =>
      (count is_initialize_success (out s) <= 1)%nat /\
      (count is_launch_success (out s) <= 1)%nat /\
      (count is_terminated_event (out s) <= count is_launch_success (out s))%nat
  | OutOfFuel => False
  end.
Proof.
  pose proof (finishes_main (S (length input)) files input (Nat.lt_succ_diag_r _))
    as Hfinishes.
  pose proof (session_milestones (S (length input)) files input) as Hkeeps.
  assert (Hgoal : forall s, milestones (initial_session input) s ->
            (count is_initialize_success (out s) <= 1)%nat /\
            (count is_launch_success (out s) <= 1)%nat /\
            (count is_terminated_event (out s) <= count is_launch_success (out s))%nat).
  { intros s [Honce Hterm].
    destruct (Honce Handshake) as [_ B1], (Honce Launch) as [_ B2].
    destruct B1 as [Hinit _]; [cbn; states; lia|reflexivity|].
    destruct B2 as [Hlaunch _]; [cbn; states; lia|reflexivity|].
    unfold terminated_after_launch in Hterm. cbn in *. lia. }
  destruct (main (S (length input)) files input) as [s|status s|];
    cbn [related2 finishes id] in *; auto.
Qed.

(** ** Between a stop and the resume *)

Lemma count_responses (f : ProtocolMessage -> bool) (rs : list Response) :
  (forall r, f (VSCODE_RESPONSE r) = false) ->
  count f (map VSCODE_RESPONSE rs) = 0%nat.
Proof.
  intros Hf. induction rs as [|r rs IH]; cbn; [reflexivity|].
  rewrite Hf, IH. reflexivity.
Qed.

Lemma loop_past_initialized {H : protocol_h} (fuel : nat) (L : lua_State)
    (s : Session) :
  DEBUGGER_INITIALIZED < debugger_state s ->
  match command_loop fuel L s with
  | Return s' | Exit _ s' =>
      debugger_state s' = debugger_state s /\
      thread_event_sent s' = thread_event_sent s /\
      exists rs, out s' = out s ++ map VSCODE_RESPONSE rs
  | OutOfFuel => True
  end.
Proof.
  revert L s. induction fuel as [|fuel IH]; intros L s Hstate; [exact I|].
  assert (Hhere : debugger_state s = debugger_state s /\
                  thread_event_sent s = thread_event_sent s /\
                  exists rs, out s = out s ++ map VSCODE_RESPONSE rs)
    by (repeat split; exists []; cbn; rewrite app_nil_r; reflexivity).
  cbn [command_loop].
  destruct (stdin s) as [|item rest] eqn:Hin; [exact Hhere|].
  destruct item as [line|len| |len|req]; try exact Hhere.
  - exact (IH L (set_stdin rest s) Hstate).
  - remember (dispatch
                (lua_pcall (ravi_debughook (debugger (command_loop fuel))))
                L req (set_stdin rest s)) as o eqn:Ho.
    pose proof (dispatch_has_shape
                  (lua_pcall (ravi_debughook (debugger (command_loop fuel))))
                  L req (set_stdin rest s)) as Hshape.
    rewrite <- Ho in Hshape.
    destruct Hshape as [r get_command _ _ _ _ _ _|r _ _ _ _
                       |r _ Hbelow _ _ _ _|r diagnostic _ Hat _ _ _ _
                       |r p _ Hat _ _ _ _];
      cbn [debugger_state set_stdin] in *;
      try (unfold DEBUGGER_INITIALIZED in *; lia).
    + cbn [bind]. destruct get_command.
      * specialize (IH L (emit (VSCODE_RESPONSE r) (set_stdin rest s)) Hstate).
        destruct (command_loop fuel L _) as [s'|status s'|]; [| |exact I];
          destruct IH as (Hs & Hsent & rs & Hout); repeat split; auto;
          exists (r :: rs); rewrite Hout; cbn; rewrite <- app_assoc;
          reflexivity.
      * repeat split. exists [r]. reflexivity.
    + cbn [bind]. repeat split. exists [r]. reflexivity.
Qed.

(** Once the session is past Initialized (a program is running, stopped or
    has ended) the read loop writes nothing but responses, one after the
    other, and changes neither the state nor the thread-event flag:
    initialize and launch are refused there and no program is run. *)
Theorem loop_serves_requests {H : protocol_h} (fuel : nat) (L : lua_State)
    (s : Session) :
  DEBUGGER_INITIALIZED < debugger_state s ->
  match command_loop fuel L s with
  | Return s' | Exit _ s' =>
      debugger_state s' = debugger_state s /\
      thread_event_sent s' = thread_event_sent s /\
      exists rs, out s' = out s ++ map VSCODE_RESPONSE rs
  | OutOfFuel => True
  end.
Proof. apply loop_past_initialized. Qed.

Lemma loop_serves_requests_witness :
  match command_loop (H := sample_protocol_h) 5 (sample_lua_State [sample_frame])
          {| debugger_state := DEBUGGER_PROGRAM_STOPPED;
             thread_event_sent := true;
             stdin := [ Message (sample_request InitializeRequest);
                        Message (sample_request (LaunchRequest "/a/b.lua"));
                        Message (sample_request NextRequest) ];
             out := [] |} with
  | Return s' | Exit _ s' =>
      debugger_state s' = DEBUGGER_PROGRAM_STOPPED /\
      thread_event_sent s' = true /\
      exists rs, out s' = [] ++ map VSCODE_RESPONSE rs
  | OutOfFuel => True
  end.
Proof.
  apply (loop_serves_requests (H := sample_protocol_h) 5
           (sample_lua_State [sample_frame])
           {| debugger_state := DEBUGGER_PROGRAM_STOPPED;
              thread_event_sent := true;
              stdin := [ Message (sample_request InitializeRequest);
                         Message (sample_request (LaunchRequest "/a/b.lua"));
                         Message (sample_request NextRequest) ];
              out := [] |}).
  vm_compute. reflexivity.
Defined.

(** The adapter stops at every line: a run of the program that returns,
    entered in ProgramRunning, has written exactly one stopped event for
    each line event the hook got, whatever requests were served at the
    stops and whichever of stepIn, stepOut and next resumed the program,
    and it ends in ProgramRunning. *)
Theorem one_stop_per_line {H : protocol_h} (fuel : nat) (L : lua_State)
    (events : list HookCall) (s : Session) :
  debugger_state s = DEBUGGER_PROGRAM_RUNNING ->
  match run_events (ravi_debughook (debugger (command_loop fuel))) L events s with
  | Return s' =>
      debugger_state s' = DEBUGGER_PROGRAM_RUNNING /\
      count is_stopped_event (out s') =
        (count is_stopped_event (out s) + line_events (hookmask L) events)%nat
  | _ => True
  end.
Proof.
  revert s. induction events as [|ar events IH]; intros s Hstate;
    cbn [run_events].
  { split; [exact Hstate|]. cbn. lia. }
  unfold line_events. cbn [List.filter].
  destruct (hook_enabled (hookmask L) (event ar)); cbn [bind andb];
    [|exact (IH s Hstate)].
  unfold ravi_debughook.
  destruct (event ar =? LUA_HOOKLINE); cbn [bind]; [|exact (IH s Hstate)].
  rewrite debugger_stopped_session, Hstate.
  change (DEBUGGER_PROGRAM_RUNNING =? DEBUGGER_PROGRAM_TERMINATED) with false.
  cbv iota.
  assert (Hstopped : debugger_state (stopped_session s) = DEBUGGER_PROGRAM_STOPPED /\
                     count is_stopped_event (out (stopped_session s)) =
                     S (count is_stopped_event (out s))).
  { unfold stopped_session. rewrite Hstate.
    change (DEBUGGER_PROGRAM_RUNNING =? DEBUGGER_PROGRAM_RUNNING) with true.
    cbv iota. split; [reflexivity|].
    destruct (thread_event_sent s); cbn; rewrite ?count_app; cbn; lia. }
  destruct Hstopped as [Hstate' Hcount'].
  pose proof (loop_past_initialized fuel (set_ci (frames ar) L) (stopped_session s))
    as Hloop.
  destruct (command_loop fuel (set_ci (frames ar) L) (stopped_session s))
    as [s1|status s1|]; cbn [bind]; [|exact I|exact I].
  destruct Hloop as (_ & _ & rs & Hout);
    [rewrite Hstate'; unfold DEBUGGER_INITIALIZED, DEBUGGER_PROGRAM_STOPPED; lia|].
  specialize (IH (set_state DEBUGGER_PROGRAM_RUNNING s1) eq_refl).
  destruct (run_events _ L events (set_state DEBUGGER_PROGRAM_RUNNING s1))
    as [s'| |]; [|exact I|exact I].
  destruct IH as [Hs' Hcount]. split; [exact Hs'|].
  rewrite Hcount. cbn [out set_state]. rewrite Hout, count_app, Hcount'.
  rewrite count_responses by reflexivity.
  unfold line_events. cbn [length]. lia.
Qed.

Lemma one_stop_per_line_witness :
  match run_events
          (ravi_debughook (debugger (command_loop (H := sample_protocol_h) 5)))
          (sample_lua_State []) (chunk_events sample_chunk)
          {| debugger_state := DEBUGGER_PROGRAM_RUNNING;
             thread_event_sent := false;
             stdin := [ Message (sample_request StepInRequest);
                        Message (sample_request (ScopesRequest 0));
                        Message (sample_request StepOutRequest) ];
             out := [] |} with
  | Return s' =>
      debugger_state s' = DEBUGGER_PROGRAM_RUNNING /\
      count is_stopped_event (out s') = 2%nat
  | _ => True
  end.
Proof.
  apply (one_stop_per_line (H := sample_protocol_h) 5 (sample_lua_State [])
           (chunk_events sample_chunk)
           {| debugger_state := DEBUGGER_PROGRAM_RUNNING;
              thread_event_sent := false;
              stdin := [ Message (sample_request StepInRequest);
                         Message (sample_request (ScopesRequest 0));
                         Message (sample_request StepOutRequest) ];
              out := [] |}).
  reflexivity.
Defined.

(** ** Source names of stack frames *)

Lemma strrchr_next_None (c : ascii) (s : string) :
  strrchr_next c s = None <-> occurs c s = false.
Proof.
  induction s as [|a rest IH]; cbn; [tauto|].
  destruct (strrchr_next c rest) as [t|].
  - split; [discriminate|]. intros Hno.
    apply orb_false_iff in Hno as [_ Hrest]. apply IH in Hrest. discriminate.
  - destruct (Ascii.eqb a c); cbn; [split; discriminate|].
    split; [intros _; apply IH; reflexivity|reflexivity].
Qed.

Lemma strrchr_next_Some (c : ascii) (s : string) :
  forall t,
    strrchr_next c s = Some t <->
    exists before, s = String.append before (String c t) /\ occurs c t = false.
Proof.
  induction s as [|a rest IH]; intros t; cbn.
  - split; [discriminate|]. intros (before & Heq & _).
    destruct before; discriminate.
  - destruct (strrchr_next c rest) as [t'|] eqn:Hrest.
    + split.
      * intros [= ->]. destruct (proj1 (IH t) eq_refl) as (before & -> & Hno).
        exists (String a before). split; [reflexivity|exact Hno].
      * intros (before & Heq & Hno). destruct before as [|b before]; cbn in Heq.
        -- injection Heq as -> ->. apply strrchr_next_None in Hno. congruence.
        -- injection Heq as -> ->. apply IH. eauto.
    + apply strrchr_next_None in Hrest. split.
      * destruct (Ascii.eqb_spec a c) as [->|Hne]; [|discriminate].
        intros [= ->]. exists EmptyString. split; [reflexivity|exact Hrest].
      * intros (before & Heq & Hno). destruct before as [|b before]; cbn in Heq.
        -- injection Heq as -> ->. rewrite Ascii.eqb_refl. reflexivity.
        -- injection Heq as -> ->. exfalso.
           assert (Hsome : @None string = Some t) by (apply IH; eauto).
           discriminate Hsome.
Qed.

(** [strrchr_next c s] is what follows the last [c] of [s]: it is [t]
    exactly when [s] is some text, then [c], then [t], with no [c] in [t];
    and it is absent exactly when [c] does not occur in [s]. *)
Theorem strrchr_next_last (c : ascii) (s : string) :
  (forall t,
     strrchr_next c s = Some t <->
     exists before, s = String.append before (String c t) /\ occurs c t = false) /\
  (strrchr_next c s = None <-> occurs c s = false).
Proof. split; [apply strrchr_next_Some|apply strrchr_next_None]. Qed.

Lemma read_local_fits (n : nat) (text behind : string) :
  (String.length text < n)%nat -> read_local n text behind = text.
Proof.
  intros Hlen. unfold read_local.
  destruct (Nat.ltb_spec (String.length text) n) as [_|Hge]; [reflexivity|lia].
Qed.

Lemma read_local_full (n : nat) (text behind : string) :
  (n <= String.length text)%nat ->
  read_local n text behind = String.append (strncpy n text) behind.
Proof.
  intros Hlen. unfold read_local.
  destruct (Nat.ltb_spec (String.length text) n) as [Hlt|_]; [lia|reflexivity].
Qed.

Lemma stack_frame_at_source {H : protocol_h} (depth : Z) (entry : CallInfo) :
  frame_source (stack_frame_at depth entry) =
    {| source_name :=
         strncpy sizeof_source_name
           match strrchr_next "/" (chunk_name (source entry)) with
           | Some after =>
               read_local 256 after (behind_local 256 (chunk_name (source entry)))
           | None =>
               read_local 256 (chunk_name (source entry))
                 (behind_local 256 (chunk_name (source entry)))
           end;
       source_path :=
         strncpy sizeof_source_path
           (read_local 1024 (chunk_name (source entry))
              (behind_local 1024 (chunk_name (source entry)))) |}.
Proof.
  unfold stack_frame_at, chunk_name. cbn [frame_source].
  destruct (source entry) as [|[[] [] [] [] [] [] [] []] rest]; reflexivity.
Qed.

(** The source of a stack frame.  With the leading '@' of the interpreter's
    source string taken off: as long as a text is shorter than the local
    buffer it is copied through ([path[1024]], [name[256]]) and fits the
    array of the response, [source.path] is the whole chunk name, and
    [source.name] is what follows its last '/', or the whole chunk name when
    it has no '/'.  A text that fills its local buffer leaves it without a
    terminator: the response then gets the characters copied and, after
    them, what lies behind the buffer. *)
Theorem source_of_frame {H : protocol_h} (depth : Z) (entry : CallInfo) :
  ((String.length (chunk_name (source entry)) < 1024)%nat ->
   (String.length (chunk_name (source entry)) <= sizeof_source_path)%nat ->
   source_path (frame_source (stack_frame_at depth entry)) =
     chunk_name (source entry)) /\
  (forall dir base,
     chunk_name (source entry) = String.append dir (String "/" base) ->
     occurs "/" base = false ->
     (String.length base < 256)%nat ->
     (String.length base <= sizeof_source_name)%nat ->
     source_name (frame_source (stack_frame_at depth entry)) = base) /\
  (occurs "/" (chunk_name (source entry)) = false ->
   (String.length (chunk_name (source entry)) < 256)%nat ->
   (String.length (chunk_name (source entry)) <= sizeof_source_name)%nat ->
   source_name (frame_source (stack_frame_at depth entry)) =
     chunk_name (source entry)) /\
  ((1024 <= String.length (chunk_name (source entry)))%nat ->
   source_path (frame_source (stack_frame_at depth entry)) =
     strncpy sizeof_source_path
       (String.append (strncpy 1024 (chunk_name (source entry)))
          (behind_local 1024 (chunk_name (source entry))))) /\
  (forall dir base,
     chunk_name (source entry) = String.append dir (String "/" base) ->
     occurs "/" base = false ->
     (256 <= String.length base)%nat ->
     source_name (frame_source (stack_frame_at depth entry)) =
       strncpy sizeof_source_name
         (String.append (strncpy 256 base)
            (behind_local 256 (chunk_name (source entry))))).
Proof.
  rewrite stack_frame_at_source. cbn [source_path source_name].
  split; [|split; [|split; [|split]]].
  - intros H1 H2. rewrite read_local_fits by exact H1.
    apply strncpy_fits. exact H2.
  - intros dir base Hsrc Hbase H1 H2.
    assert (Hlast : strrchr_next "/" (chunk_name (source entry)) = Some base)
      by (apply strrchr_next_Some; eauto).
    rewrite Hlast, read_local_fits by exact H1.
    apply strncpy_fits. exact H2.
  - intros Hno H1 H2. apply strrchr_next_None in Hno.
    rewrite Hno, read_local_fits by exact H1.
    apply strncpy_fits. exact H2.
  - intros H1. rewrite read_local_full by exact H1. reflexivity.
  - intros dir base Hsrc Hbase H1.
    assert (Hlast : strrchr_next "/" (chunk_name (source entry)) = Some base)
      by (apply strrchr_next_Some; eauto).
    rewrite Hlast, read_local_full by exact H1. reflexivity.
Qed.

Lemma source_of_frame_witness :
  frame_source (stack_frame_at (H := sample_protocol_h) 0 sample_frame) =
  {| source_name := "b.lua"; source_path := "/a/b.lua" |}.
Proof.
  destruct (source_of_frame (H := sample_protocol_h) 0 sample_frame)
    as (Hpath & Hname & _).
  specialize (Hpath ltac:(vm_compute; lia) ltac:(vm_compute; lia)).
  specialize (Hname "/a" "b.lua" eq_refl eq_refl
                ltac:(vm_compute; lia) ltac:(vm_compute; lia)).
  destruct (frame_source (stack_frame_at 0 sample_frame)) as [n p].
  cbn [source_name source_path] in *. rewrite Hpath, Hname. reflexivity.
Defined.

(** A chunk name of exactly 256 characters fills [name[256]] and leaves it
    without a terminator: with room for 300 characters, [source.name] is the
    256 characters and 44 more from behind the buffer, while [source.path],
    copied through [path[1024]], is the chunk name. *)
Example source_name_overrun :
  frame_source (stack_frame_at (H := wide_protocol_h) 0 long_name_frame) =
  {| source_name := String.append (fill 256 "n") (fill 44 "#");
     source_path := fill 256 "n" |}.
Proof. vm_compute. reflexivity. Qed.

(** ** stackTrace and variables at their edges *)

(** The number of frames of a stackTrace response, for every [levels]: the
    least of [levels], [MAX_STACK_FRAMES] and the depth of the stack, and
    none when that is negative.  So [levels = 0] (or a negative one) gives
    an empty success response.  The frames array keeps its length and the
    slots from [totalFrames] on are left as they were, cleared. *)
Theorem stack_trace_count {H : protocol_h} (req : Request) (levels : Z)
    (L : lua_State) (s : Session) :
  exists r stackFrames totalFrames,
    handle_stack_trace_request req levels L s = emit (VSCODE_RESPONSE r) s /\
    success r = true /\
    body r = StackTraceResponse stackFrames totalFrames /\
    totalFrames =
      Z.max 0 (Z.min levels (Z.min MAX_STACK_FRAMES (Z.of_nat (length (ci L))))) /\
    length stackFrames = Z.to_nat MAX_STACK_FRAMES /\
    (forall i : nat,
       totalFrames <= Z.of_nat i ->
       stackFrames !! i =
         replicate (Z.to_nat MAX_STACK_FRAMES) zero_StackFrame !! i) /\
    (levels <= 0 ->
     totalFrames = 0 /\
     stackFrames = replicate (Z.to_nat MAX_STACK_FRAMES) zero_StackFrame).
Proof.
  unfold handle_stack_trace_request.
  cbn [vscode_make_success_response body zero_body stackFrames_of].
  destruct (stack_trace_loop_spec L levels (S (length (ci L))) 0
              (replicate (Z.to_nat MAX_STACK_FRAMES) zero_StackFrame))
    as (arr' & total & Hrun & Htotal & Hlen & Hfilled & Hkept); [lia|lia|].
  change (Z.of_nat 0) with 0 in Hrun, Htotal. rewrite Hrun.
  rewrite length_replicate in Hlen.
  eexists _, arr', total. split; [reflexivity|].
  cbn [success body set_body].
  split; [reflexivity|]. split; [reflexivity|]. split; [exact Htotal|].
  split; [exact Hlen|]. split.
  - intros i Hi. apply Hkept. right. exact Hi.
  - intros Hlevels. split; [lia|].
    apply list_eq. intros i. apply Hkept. right. lia.
Qed.

Lemma stack_trace_count_witness :
  exists r,
    handle_stack_trace_request (H := sample_protocol_h)
      (sample_request (StackTraceRequest 0)) 0
      (sample_lua_State [sample_frame]) (sample_session DEBUGGER_PROGRAM_STOPPED) =
    emit (VSCODE_RESPONSE r) (sample_session DEBUGGER_PROGRAM_STOPPED) /\
    success r = true /\
    body r = StackTraceResponse (replicate 20 zero_StackFrame) 0.
Proof.
  destruct (stack_trace_count (H := sample_protocol_h)
              (sample_request (StackTraceRequest 0)) 0
              (sample_lua_State [sample_frame])
              (sample_session DEBUGGER_PROGRAM_STOPPED))
    as (r & stackFrames & totalFrames & Hrun & Hsuccess & Hbody & _ & _ & _ & Hnone).
  destruct Hnone as [-> ->]; [lia|].
  exists r. split; [exact Hrun|]. split; [exact Hsuccess|exact Hbody].
Defined.

Lemma store_names_slot (names : list string) :
  forall {H : protocol_h} (v : VariableEntry) (rest : list VariableEntry),
    store_names 0 names (v :: rest) =
      match last names with
      | Some local => set_variable_name (strncpy sizeof_variable_name local) v
      | None => v
      end :: rest.
Proof.
  induction names as [|local names IH]; intros H v rest; [reflexivity|].
  unfold store_names in *. cbn [foldl]. cbn [alter list_alter].
  rewrite IH, last_cons. destruct (last names); reflexivity.
Qed.

(** The variables of a Locals handle.  Every name the handler finds is
    stored into slot 0 of the variables array, so the success response holds
    in slot 0 the last of the first [MAX_VARIABLES - 1] local names of the
    frame (nothing for a frame without locals) and every other slot is
    cleared. *)
Theorem locals_land_in_slot_0 {H : protocol_h} (req : Request) (varRef : Z)
    (L : lua_State) (s : Session) (entry : CallInfo) :
  1 <= MAX_VARIABLES ->
  varRef < 2000000 ->
  lua_getstack L (wrap_int (varRef - 1000000)) = Some entry ->
  exists r,
    handle_variables_request req varRef L s = emit (VSCODE_RESPONSE r) s /\
    success r = true /\
    body r =
      VariablesResponse
        (match last (take (Z.to_nat (MAX_VARIABLES - 1)) (locals entry)) with
         | Some local =>
             set_variable_name (strncpy sizeof_variable_name local)
               zero_VariableEntry
         | None => zero_VariableEntry
         end :: replicate (Z.to_nat (MAX_VARIABLES - 1)) zero_VariableEntry).
Proof.
  intros Hmax Hlow Hframe. rewrite handle_variables_request_eq.
  destruct (Z.ltb_spec varRef 2000000); [|lia]. rewrite Hframe.
  eexists. split; [reflexivity|]. cbn [success body].
  split; [reflexivity|].
  replace (Z.to_nat MAX_VARIABLES) with (S (Z.to_nat (MAX_VARIABLES - 1))) by lia.
  cbn [replicate]. rewrite store_names_slot. reflexivity.
Qed.

Lemma locals_land_in_slot_0_witness :
  exists r,
    handle_variables_request (H := sample_protocol_h)
      (sample_request (VariablesRequest 1000000)) 1000000
      (sample_lua_State [sample_frame]) (sample_session DEBUGGER_PROGRAM_STOPPED) =
    emit (VSCODE_RESPONSE r) (sample_session DEBUGGER_PROGRAM_STOPPED) /\
    success r = true /\
    body r =
      VariablesResponse
        (set_variable_name "y" zero_VariableEntry ::
         replicate 249 zero_VariableEntry).
Proof.
  apply (locals_land_in_slot_0 (H := sample_protocol_h)
           (sample_request (VariablesRequest 1000000)) 1000000
           (sample_lua_State [sample_frame])
           (sample_session DEBUGGER_PROGRAM_STOPPED) sample_frame).
  - vm_compute. discriminate.
  - lia.
  - reflexivity.
Defined.

(** ** From a scopes response to a variables request *)

Lemma lua_getstack_nonneg (L : lua_State) (level : Z) (entry : CallInfo) :
  lua_getstack L level = Some entry -> 0 <= level.
Proof.
  unfold lua_getstack. destruct (Z.ltb_spec level 0); [discriminate|lia].
Qed.

(** The handles of a scopes response, sent back in a variables request on
    the same stack (frame below 10^6): the Locals handle is answered with
    success, from the locals of the very frame the scopes were asked for;
    the Upvalues and Globals handles, although the scopes response offers
    them, are answered with the error "Error retrieving variables". *)
Theorem scopes_then_variables {H : protocol_h} (req req' : Request)
    (frameId : Z) (L : lua_State) (s s' : Session) (entry : CallInfo) :
  3 <= MAX_SCOPES ->
  lua_getstack L frameId = Some entry ->
  frameId < 10 ^ 6 ->
  exists r,
    handle_scopes_request req frameId L s = emit (VSCODE_RESPONSE r) s /\
    take (length (scope_entries frameId entry)) (scopes_of (body r)) =
      scope_entries frameId entry /\
    forall sc,
      In sc (scope_entries frameId entry) ->
      exists r',
        handle_variables_request req' (scope_variablesReference sc) L s' =
          emit (VSCODE_RESPONSE r') s' /\
        (sc = scope_entry Locals frameId ->
         success r' = true /\
         body r' =
           VariablesResponse
             (store_names 0
                (take (Z.to_nat (MAX_VARIABLES - 1)) (locals entry))
                (replicate (Z.to_nat MAX_VARIABLES) zero_VariableEntry))) /\
        (sc <> scope_entry Locals frameId ->
         success r' = false /\ message r' = "Error retrieving variables").
Proof.
  intros Hmax Hframe Hcap.
  pose proof (lua_getstack_nonneg _ _ _ Hframe) as Hnonneg.
  eexists. split; [|split].
  - unfold handle_scopes_request. rewrite Hframe. reflexivity.
  - unfold scope_entries, scope_entry, encode_handle. simpl kind_base.
    cbn [vscode_make_success_response body zero_body scopes_of set_body].
    destruct (Z.to_nat MAX_SCOPES) as [|[|[|n]]] eqn:Hn; try lia.
    destruct (0 <? nups entry); reflexivity.
  - intros sc Hsc. rewrite handle_variables_request_eq.
    eexists. split; [reflexivity|].
    assert (Hcases : sc = scope_entry Locals frameId \/
                     sc = scope_entry Upvalues frameId \/
                     sc = scope_entry Globals frameId).
    { unfold scope_entries in Hsc. destruct (0 <? nups entry); cbn in Hsc;
        intuition auto. }
    destruct Hcases as [->|[->| ->]];
      cbn [scope_entry scope_variablesReference]; unfold encode_handle;
      simpl kind_base;
      rewrite (wrap_int_id (_ + frameId)) by (unfold int_range; lia).
    + destruct (Z.ltb_spec (1000000 + frameId) 2000000); [|lia].
      rewrite wrap_int_id by (unfold int_range; lia).
      replace (1000000 + frameId - 1000000) with frameId by lia.
      rewrite Hframe. split; [intros _; split; reflexivity|].
      intros Hne. contradiction Hne. reflexivity.
    + destruct (Z.ltb_spec (2000000 + frameId) 2000000); [lia|].
      split; [|intros _; split; reflexivity].
      intros Heq. apply (f_equal scope_variablesReference) in Heq.
      cbn in Heq. unfold encode_handle in Heq. simpl kind_base in Heq.
      rewrite !wrap_int_id in Heq by (unfold int_range; lia). lia.
    + destruct (Z.ltb_spec (3000000 + frameId) 2000000); [lia|].
      split; [|intros _; split; reflexivity].
      intros Heq. apply (f_equal scope_variablesReference) in Heq.
      cbn in Heq. unfold encode_handle in Heq. simpl kind_base in Heq.
      rewrite !wrap_int_id in Heq by (unfold int_range; lia). lia.
Qed.

Lemma scopes_then_variables_witness :
  exists r',
    handle_variables_request (H := sample_protocol_h)
      (sample_request (VariablesRequest 3000000))
      (scope_variablesReference (scope_entry (H := sample_protocol_h) Globals 0))
      (sample_lua_State [sample_frame]) (sample_session DEBUGGER_PROGRAM_STOPPED) =
    emit (VSCODE_RESPONSE r') (sample_session DEBUGGER_PROGRAM_STOPPED) /\
    success r' = false /\ message r' = "Error retrieving variables".
Proof.
  destruct (scopes_then_variables (H := sample_protocol_h)
              (sample_request (ScopesRequest 0))
              (sample_request (VariablesRequest 3000000)) 0
              (sample_lua_State [sample_frame])
              (sample_session DEBUGGER_PROGRAM_STOPPED)
              (sample_session DEBUGGER_PROGRAM_STOPPED) sample_frame)
    as (r & _ & _ & Hall).
  - vm_compute. discriminate.
  - reflexivity.
  - lia.
  - destruct (Hall (scope_entry (H := sample_protocol_h) Globals 0))
      as (r' & Hrun & _ & Herr).
    + right. right. left. reflexivity.
    + exists r'. split; [exact Hrun|]. apply Herr. discriminate.
Defined.

(** ** Outside a run *)

(** With no Lua function on the call stack, as in the read loop of [main]
    before a launch and after the program has ended, whatever the
    arguments: stackTrace is answered with success and no frames, scopes
    with the error "Error retrieving stack frame", variables with the error
    "Error retrieving variables". *)
Theorem inspection_outside_a_run {H : protocol_h} (req : Request)
    (L : lua_State) (s : Session) :
  ci L = [] ->
  (forall levels,
     handle_stack_trace_request req levels L s =
       emit (VSCODE_RESPONSE
               (vscode_make_success_response req VSCODE_STACK_TRACE_RESPONSE)) s) /\
  (forall frameId,
     handle_scopes_request req frameId L s =
       emit (VSCODE_RESPONSE
               (vscode_make_error_response req VSCODE_SCOPES_RESPONSE
                  "Error retrieving stack frame")) s) /\
  (forall varRef,
     handle_variables_request req varRef L s =
       emit (VSCODE_RESPONSE
               (vscode_make_error_response req VSCODE_VARIABLES_RESPONSE
                  "Error retrieving variables")) s).
Proof.
  intros Hempty.
  assert (Hnone : forall level, lua_getstack L level = None).
  { intros level. unfold lua_getstack. rewrite Hempty.
    destruct (level <? 0); reflexivity. }
  split; [|split].
  - intros levels. unfold handle_stack_trace_request. rewrite Hempty.
    cbn [length stack_trace_loop]. rewrite Hnone. reflexivity.
  - intros frameId. unfold handle_scopes_request. rewrite Hnone. reflexivity.
  - intros varRef. rewrite handle_variables_request_eq, Hnone.
    destruct (varRef <? 2000000); reflexivity.
Qed.

Lemma inspection_outside_a_run_witness :
  handle_scopes_request (H := sample_protocol_h) (sample_request (ScopesRequest 0))
    0 (sample_lua_State []) (sample_session DEBUGGER_PROGRAM_TERMINATED) =
  emit (VSCODE_RESPONSE
          (vscode_make_error_response (H := sample_protocol_h)
             (sample_request (ScopesRequest 0)) VSCODE_SCOPES_RESPONSE
             "Error retrieving stack frame"))
    (sample_session DEBUGGER_PROGRAM_TERMINATED).
Proof.
  apply (proj1 (proj2 (inspection_outside_a_run (H := sample_protocol_h)
                         (sample_request (ScopesRequest 0)) (sample_lua_State [])
                         (sample_session DEBUGGER_PROGRAM_TERMINATED) eq_refl))).
Defined.

(** ** The read loop and the input *)

(** The read loop is bounded by the input.  A launched program is taken to
    run to its end, raising finitely many hook events; a program that does
    not return keeps [main] from returning, and is outside this statement.
    The adapter's own loop, nested through the hook as deep as the requests
    make it, then needs no more than one turn per input item and one to see
    the end of the input: with any amount of fuel above the number of input
    items [main] returns or exits, the outcome is the same for every such
    amount, and what is left of the input is never more than what was
    given, since every turn takes an item and none is put back. *)
Theorem read_loop_bounded_by_input {H : protocol_h} (fuel : nat)
    (files : string -> LoadResult) (input : list Incoming) :
  (length input < fuel)%nat ->
  finishes (main fuel files input) /\
  main fuel files input = main (S (length input)) files input /\
  match main fuel files input with
  | Return s | Exit _ s => (length (stdin s) <= length input)%nat
  | OutOfFuel => False
  end.
Proof.
  intros Hfuel.
  pose proof (finishes_main fuel files input Hfuel) as Hfinishes.
  split; [exact Hfinishes|]. split; [apply main_fuel; exact Hfuel|].
  assert (Hshrinks : related stdin_shrinks id (initial_session input)
                       (main fuel files input)).
  { unfold main. apply R_debugger; unfold stdin_shrinks; intros; cbn; try lia.
    apply shrinks_command_loop. }
  destruct (main fuel files input); cbn in *; auto.
Qed.

Lemma read_loop_bounded_by_input_witness :
  finishes (main (H := sample_protocol_h) 20 sample_files sample_input).
Proof.
  exact (proj1 (read_loop_bounded_by_input (H := sample_protocol_h) 20
                  sample_files sample_input ltac:(cbn; lia))).
Defined.

(** ** End of input during a run *)

(** When the input is at its end the program is not held: every line event
    still writes its stopped event (after the thread event, for the first
    one), the read loop finds nothing and the hook resumes the program at
    once, so the run goes through to its end with nothing but these events
    written. *)
Theorem run_on_closed_input {H : protocol_h} (fuel : nat) (L : lua_State)
    (events : list HookCall) (s : Session) :
  (0 < fuel)%nat ->
  debugger_state s = DEBUGGER_PROGRAM_RUNNING ->
  stdin s = [] ->
  exists s' added,
    run_events (ravi_debughook (debugger (command_loop fuel))) L events s =
      Return s' /\
    debugger_state s' = DEBUGGER_PROGRAM_RUNNING /\
    stdin s' = [] /\
    out s' = out s ++ added /\
    Forall (fun m => is_stopped_event m = true \/ m = thread_started) added /\
    count is_stopped_event added = line_events (hookmask L) events.
Proof.
  intros Hfuel. destruct fuel as [|fuel]; [lia|]. clear Hfuel.
  revert s. induction events as [|ar events IH]; intros s Hstate Hin.
  { exists s, []. cbn. rewrite app_nil_r. repeat split; auto. }
  assert (Hskip :
    exists s' added,
      run_events (ravi_debughook (debugger (command_loop (S fuel)))) L events s =
        Return s' /\
      debugger_state s' = DEBUGGER_PROGRAM_RUNNING /\ stdin s' = [] /\
      out s' = out s ++ added /\
      Forall (fun m => is_stopped_event m = true \/ m = thread_started) added /\
      count is_stopped_event added = line_events (hookmask L) events)
    by (apply IH; assumption).
  cbn [run_events]. unfold line_events. cbn [List.filter].
  destruct (hook_enabled (hookmask L) (event ar)); cbn [bind andb];
    [|exact Hskip].
  unfold ravi_debughook.
  destruct (event ar =? LUA_HOOKLINE); cbn [bind]; [|exact Hskip].
  clear Hskip. rewrite debugger_stopped_session, Hstate.
  change (DEBUGGER_PROGRAM_RUNNING =? DEBUGGER_PROGRAM_TERMINATED) with false.
  cbv iota.
  assert (Hstopped :
    stdin (stopped_session s) = [] /\
    exists stop,
      out (stopped_session s) = out s ++ stop /\
      Forall (fun m => is_stopped_event m = true \/ m = thread_started) stop /\
      count is_stopped_event stop = 1%nat).
  { unfold stopped_session. rewrite Hstate.
    change (DEBUGGER_PROGRAM_RUNNING =? DEBUGGER_PROGRAM_RUNNING) with true.
    cbv iota. split; [destruct (thread_event_sent s); exact Hin|].
    destruct (thread_event_sent s); cbn.
    - exists [stopped "step"]. split; [reflexivity|]. split; [|reflexivity].
      constructor; [left; reflexivity|constructor].
    - exists [thread_started; stopped "entry"]. rewrite <- app_assoc.
      split; [reflexivity|]. split; [|reflexivity].
      constructor; [right; reflexivity|].
      constructor; [left; reflexivity|constructor]. }
  destruct Hstopped as (Hin' & stop & Hout' & Hstop & Hone).
  cbn [command_loop]. rewrite Hin'. cbn [bind].
  destruct (IH (set_state DEBUGGER_PROGRAM_RUNNING (stopped_session s)))
    as (s' & added & Hrun & Hs' & Hins' & Houts' & Hadded & Hcount);
    [reflexivity|exact Hin'|].
  exists s', (stop ++ added). split; [exact Hrun|].
  split; [exact Hs'|]. split; [exact Hins'|].
  split; [rewrite Houts'; cbn [out set_state]; rewrite Hout', app_assoc;
          reflexivity|].
  split; [apply Forall_app; split; assumption|].
  rewrite count_app, Hone, Hcount. unfold line_events. cbn [length]. lia.
Qed.

Lemma run_on_closed_input_witness :
  exists s' added,
    run_events
      (ravi_debughook (debugger (command_loop (H := sample_protocol_h) 1)))
      (sample_lua_State []) (chunk_events sample_chunk)
      (sample_session DEBUGGER_PROGRAM_RUNNING) = Return s' /\
    debugger_state s' = DEBUGGER_PROGRAM_RUNNING /\
    stdin s' = [] /\
    out s' = [] ++ added /\
    Forall (fun m => is_stopped_event m = true \/ m = thread_started) added /\
    count is_stopped_event added = 2%nat.
Proof.
  apply (run_on_closed_input (H := sample_protocol_h) 1 (sample_lua_State [])
           (chunk_events sample_chunk) (sample_session DEBUGGER_PROGRAM_RUNNING)).
  - lia.
  - reflexivity.
  - reflexivity.
Defined.
